(** * The OPTiMaDe implementation validator ([optimade/validator/validator.py])

    A shallow embedding of the validator's HTTP client, of its [test_case]
    decorator and of the [ImplementationValidator] pipeline, followed by the
    properties of the conformance run that are established on it.

    Python objects carry mutable fields and exceptions unwind the call stack
    while leaving earlier mutations in place.  Both are modelled by a monad
    [M A := State -> Outcome A * State]: the state is kept when an exception
    is raised. *)

From Stdlib Require Import ZArith Lia List Bool Ascii String DecimalString.
From stdpp Require Import base option gmap strings list fin_maps.

Import ListNotations.
Open Scope string_scope.
Open Scope list_scope.
Open Scope Z_scope.

(** ** Python values that the validator handles *)

(** The parsed body of a response, [response.json()].  JSON numbers are kept
    when they are integers; the validator never computes with them. *)
#[local] Set Warnings "-register-all".
Inductive JSON : Type :=
| JNull
| JBool (b : bool)
| JNum (n : Z)
| JStr (s : string)
| JArr (items : list JSON)
| JObj (fields : list (string * JSON)).
#[local] Set Warnings "register-all".

(** Hashable Python values: what may sit in the [set] of entry endpoints. *)
Inductive PyKey : Type :=
| KNone
| KBool (b : bool)
| KInt (n : Z)
| KStr (s : string).

(** The exception classes that can occur in a run.  The first three are the
    ones that the [test_case] decorator names. *)
Inductive ExcClass : Type :=
| ResponseError
| ValidationError
| ManualValidationError
| AttributeError
| KeyError
| TypeError
| NameError
| ValueError
| RuntimeError
| ConnectionError.

Record Exc : Type := mkExc { exc_class : ExcClass; exc_str : string }.

(** [type(exc).__name__] *)
Definition class_name (c : ExcClass) : string :=
  match c with
  | ResponseError => "ResponseError"
  | ValidationError => "ValidationError"
  | ManualValidationError => "ManualValidationError"
  | AttributeError => "AttributeError"
  | KeyError => "KeyError"
  | TypeError => "TypeError"
  | NameError => "NameError"
  | ValueError => "ValueError"
  | RuntimeError => "RuntimeError"
  | ConnectionError => "ConnectionError"
  end.

(** [str(n)] for a Python [int]. *)
Definition str_of_int (n : Z) : string := NilZero.string_of_int (Z.to_int n).

(** [str(k)], as an f-string renders it. *)
Definition py_str (k : PyKey) : string :=
  match k with
  | KNone => "None"
  | KBool true => "True"
  | KBool false => "False"
  | KInt n => str_of_int n
  | KStr s => s
  end.

(** Python's [==] on hashable values: [True == 1] and [False == 0]. *)
Definition key_num (k : PyKey) : option Z :=
  match k with
  | KBool true => Some 1
  | KBool false => Some 0
  | KInt n => Some n
  | _ => None
  end.

Definition py_eq (a b : PyKey) : bool :=
  match a, b with
  | KNone, KNone => true
  | KStr s, KStr t => String.eqb s t
  | _, _ =>
      match key_num a, key_num b with
      | Some m, Some n => Z.eqb m n
      | _, _ => false
      end
  end.

(** A Python [set], kept as a list without [py_eq]-duplicates.  The order
    of the list stands for the iteration order of the set. *)
Definition PySet : Type := list PyKey.

(** [k in s] *)
Definition py_in (k : PyKey) (s : PySet) : bool := existsb (py_eq k) s.

Definition py_set_add (s : PySet) (k : PyKey) : PySet :=
  if py_in k s then s else s ++ [k].

(** [s | t], also [s |= t] and [set(l)] when [s] is empty. *)
Definition py_set_union (s : PySet) (t : list PyKey) : PySet :=
  fold_left py_set_add t s.

(** Truth value testing, [bool(x)]. *)
Class Truthy (A : Type) : Type := truthy : A -> bool.

#[global] Instance truthy_string : Truthy string :=
  fun s => match s with EmptyString => false | String _ _ => true end.

#[global] Instance truthy_JSON : Truthy JSON :=
  fun j =>
    match j with
    | JNull => false
    | JBool b => b
    | JNum n => negb (Z.eqb n 0)
    | JStr s => truthy s
    | JArr l => match l with [] => false | _ => true end
    | JObj l => match l with [] => false | _ => true end
    end.

(** The value a decorated test returns: its own result, or [False]. *)
Inductive OrFalse (A : Type) : Type :=
| Got (a : A)
| PyFalse.
Arguments Got {A} a.
Arguments PyFalse {A}.

#[global] Instance truthy_OrFalse {A} `{Truthy A} : Truthy (OrFalse A) :=
  fun r => match r with Got a => truthy a | PyFalse => false end.

(** ** Responses, pydantic models and the outside world *)

(** A [requests.Response]: its status code and its body.  The body is [None]
    when it is not JSON, in which case [response.json()] raises. *)
Record Response : Type := mkResponse {
  status_code : Z;
  body : option JSON
}.

(** [Response.__bool__] is [Response.ok]: no 4xx or 5xx status. *)
#[global] Instance truthy_Response : Truthy Response :=
  fun r => negb ((400 <=? status_code r) && (status_code r <? 600)).

(** [str(response)] *)
Definition str_of_response (r : Response) : string :=
  "<Response [" +:+ str_of_int (status_code r) +:+ "]>".

(** The four pydantic response classes imported from [optimade.models]. *)
Inductive ResponseClass : Type :=
| InfoResponse
| EntryInfoResponse
| StructureResponseMany
| StructureResponseOne.

(** One resource of a listing: [data[i].type] and [data[i].id]. *)
Record EntryResource : Type := mkEntry {
  res_type : string;
  res_id : string
}.

(** A validated model, reduced to the attributes that the validator reads:
    [data.attributes.entry_types_by_format] of an [InfoResponse] and [data]
    of the structure responses. *)
Inductive Model : Type :=
| MInfo (entry_types_by_format : gmap string (list string))
| MEntryInfo
| MMany (data : list EntryResource)
| MOne (data : EntryResource).

(** pydantic models define neither [__bool__] nor [__len__]. *)
#[global] Instance truthy_Model : Truthy Model := fun _ => true.

(** What lies outside the validator.  [requests_get k url] is the answer
    to the [k]-th request of the run (counted from 0) when it goes to [url]:
    a response, or an exception of the [requests] library.  The [parse_*]
    fields are the pydantic constructors, which return the model or the text
    of a [ValidationError]; [repr_class] and [repr_model] are [str] of a
    response class and of a model. *)
Record Env : Type := mkEnv {
  requests_get : nat -> string -> Exc + Response;
  parse_info : list (string * JSON) -> string + gmap string (list string);
  parse_entry_info : list (string * JSON) -> string + unit;
  parse_many : list (string * JSON) -> string + list EntryResource;
  parse_one : list (string * JSON) -> string + EntryResource;
  repr_class : ResponseClass -> string;
  repr_model : Model -> string
}.

(** A line on standard output, by the helper that printed it. *)
Inductive Line : Type :=
| Plain (s : string)
| Success (s : string)
| Warning (s : string)
| Failure (s : string).

(** ** State *)

(** [class Client] *)
Record Client : Type := mkClient {
  base_url : string;
  last_request : option string;
  response : option Response
}.

(** The attributes of an [ImplementationValidator] that the run reads or
    writes, with the trace of the outside world: the URLs requested so far
    (oldest first), the seconds slept and the lines printed. *)
Record State : Type := mkState {
  client : Client;
  test_id_by_type : gmap string string;
  verbosity : Z;
  test_entry_endpoints : PySet;
  valid : option bool;
  success_count : Z;
  failure_count : Z;
  requested : list string;
  slept : Z;
  stdout : list Line
}.

Definition with_client (c : Client) (s : State) : State :=
  mkState c (test_id_by_type s) (verbosity s) (test_entry_endpoints s)
    (valid s) (success_count s) (failure_count s) (requested s) (slept s)
    (stdout s).

Definition with_test_id_by_type (m : gmap string string) (s : State) : State :=
  mkState (client s) m (verbosity s) (test_entry_endpoints s)
    (valid s) (success_count s) (failure_count s) (requested s) (slept s)
    (stdout s).

Definition with_test_entry_endpoints (e : PySet) (s : State) : State :=
  mkState (client s) (test_id_by_type s) (verbosity s) e
    (valid s) (success_count s) (failure_count s) (requested s) (slept s)
    (stdout s).

Definition with_valid (v : option bool) (s : State) : State :=
  mkState (client s) (test_id_by_type s) (verbosity s) (test_entry_endpoints s)
    v (success_count s) (failure_count s) (requested s) (slept s)
    (stdout s).

Definition with_success_count (n : Z) (s : State) : State :=
  mkState (client s) (test_id_by_type s) (verbosity s) (test_entry_endpoints s)
    (valid s) n (failure_count s) (requested s) (slept s)
    (stdout s).

Definition with_failure_count (n : Z) (s : State) : State :=
  mkState (client s) (test_id_by_type s) (verbosity s) (test_entry_endpoints s)
    (valid s) (success_count s) n (requested s) (slept s)
    (stdout s).

Definition with_requested (l : list string) (s : State) : State :=
  mkState (client s) (test_id_by_type s) (verbosity s) (test_entry_endpoints s)
    (valid s) (success_count s) (failure_count s) l (slept s)
    (stdout s).

Definition with_slept (n : Z) (s : State) : State :=
  mkState (client s) (test_id_by_type s) (verbosity s) (test_entry_endpoints s)
    (valid s) (success_count s) (failure_count s) (requested s) n
    (stdout s).

Definition with_stdout (l : list Line) (s : State) : State :=
  mkState (client s) (test_id_by_type s) (verbosity s) (test_entry_endpoints s)
    (valid s) (success_count s) (failure_count s) (requested s) (slept s)
    l.

(** ** The monad of state and exceptions *)

Inductive Outcome (A : Type) : Type :=
| Return (a : A)
| Raise (e : Exc).
Arguments Return {A} a.
Arguments Raise {A} e.

Definition M (A : Type) : Type := State -> Outcome A * State.

Definition ret {A} (a : A) : M A := fun s => (Return a, s).

Definition bind {A B} (m : M A) (k : A -> M B) : M B :=
  fun s =>
    match m s with
    | (Return a, s') => k a s'
    | (Raise e, s') => (Raise e, s')
    end.

Definition raise {A} (c : ExcClass) (msg : string) : M A :=
  fun s => (Raise (mkExc c msg), s).

Definition reraise {A} (e : Exc) : M A := fun s => (Raise e, s).

(** [try: m  except <classes>: handler] *)
Definition try_except {A} (m : M A) (caught : ExcClass -> bool)
    (handler : Exc -> M A) : M A :=
  fun s =>
    match m s with
    | (Return a, s') => (Return a, s')
    | (Raise e, s') =>
        if caught (exc_class e) then handler e s' else (Raise e, s')
    end.

Definition get_state : M State := fun s => (Return s, s).
Definition modify (f : State -> State) : M unit := fun s => (Return tt, f s).

(** A value or an exception computed without touching the state. *)
Definition lift {A} (r : Exc + A) : M A :=
  match r with
  | inl e => reraise e
  | inr a => ret a
  end.

Declare Scope py_scope.
Delimit Scope py_scope with py.
Notation "x <- m ;; k" := (bind m (fun x => k))
  (at level 100, m at next level, right associativity) : py_scope.
Notation "m ;; k" := (bind m (fun _ => k))
  (at level 100, right associativity) : py_scope.
Open Scope py_scope.

(** [for x in l: body x] *)
Fixpoint for_each {B} (l : list B) (body : B -> M unit) : M unit :=
  match l with
  | [] => ret tt
  | x :: rest => body x ;; for_each rest body
  end.

Definition print (l : Line) : M unit :=
  modify (fun s => with_stdout (stdout s ++ [l]) s).

(** [time.sleep(n)] *)
Definition sleep (n : Z) : M unit :=
  modify (fun s => with_slept (slept s + n) s).

(** ** Module constants *)

Definition MAX_RETRIES : Z := 5.
Definition BASE_INFO_ENDPOINT : string := "info".
Definition REQUIRED_ENTRY_ENDPOINTS : list string := ["structures"].

(** [RESPONSE_CLASSES[key]]; [None] stands for the [KeyError]. *)
Definition RESPONSE_CLASSES (key : string) : option ResponseClass :=
  if String.eqb key "structures" then Some StructureResponseMany
  else if String.eqb key "structures/" then Some StructureResponseOne
  else if String.eqb key "calculations" then Some StructureResponseMany
  else if String.eqb key "calculations/" then Some StructureResponseOne
  else if String.eqb key "info" then Some InfoResponse
  else if String.eqb key "info/structures" then Some EntryInfoResponse
  else None.

(** The subscript expression [RESPONSE_CLASSES[key]] for a key of any
    hashable type: the keys of the table are all strings. *)
Definition response_class (key : PyKey) : M ResponseClass :=
  match key with
  | KStr k =>
      match RESPONSE_CLASSES k with
      | Some cls => ret cls
      | None => raise KeyError k
      end
  | _ => raise KeyError (py_str key)
  end.

(** ** [Client] *)

Section Validator.

Variable env : Env.

(** [requests.get(url)]: the world logs the request and answers it. *)
Definition http_get (url : string) : M Response :=
  fun s =>
    let k := length (requested s) in
    let s' := with_requested (requested s ++ [url]) s in
    match requests_get env k url with
    | inl e => (Raise e, s')
    | inr r => (Return r, s')
    end.

(** The [while retries < MAX_RETRIES: ... else: raise] loop of [Client.get],
    by recursion on [MAX_RETRIES - retries], the attempts that are left.
    Leaving the loop by [break] leads to [return self.response]. *)
Fixpoint get_attempts (remaining : nat) (url : string) : M Response :=
  match remaining with
  | O => raise ResponseError "Hit max (manual) retries on request."
  | S remaining' =>
      r <- http_get url ;;
      modify (fun s =>
        with_client (mkClient (base_url (client s)) (last_request (client s))
                       (Some r)) s) ;;
      if negb (status_code r =? 429) then ret r
      else
        print (Plain "Hit rate limit, sleeping for 1 s...") ;;
        sleep 1 ;;
        get_attempts remaining' url
  end.

(** [Client.get] *)
Definition Client_get (request : string) : M Response :=
  s <- get_state ;;
  let url := base_url (client s) +:+ "/" +:+ request in
  modify (with_client (mkClient (base_url (client s)) (Some url)
                         (response (client s)))) ;;
  get_attempts (Z.to_nat MAX_RETRIES) url.

(** ** The [test_case] decorator *)

(** The exception classes of the [except] clause of the wrapper. *)
Definition recognized (c : ExcClass) : bool :=
  match c with
  | ResponseError | ValidationError | ManualValidationError => true
  | _ => false
  end.

(** [s.split(sep)] for a separator of one character. *)
Fixpoint split_on (sep : ascii) (s : string) : list string :=
  match s with
  | EmptyString => [EmptyString]
  | String c rest =>
      let r := split_on sep rest in
      if Ascii.eqb c sep then EmptyString :: r
      else
        match r with
        | h :: t => String c h :: t
        | [] => [String c EmptyString]
        end
  end.

Definition newline : ascii := ascii_of_nat 10.
Definition tab : string := String (ascii_of_nat 9) EmptyString.

(** A [None] in an f-string prints as [None]. *)
Definition str_of_request (r : option string) : string :=
  match r with
  | Some url => url
  | None => "None"
  end.

(** [wrapper] inside [test_case].  Every client in this model is a [Client]
    and so has a [last_request]: the [except AttributeError] fallback to
    [base_url] is never taken. *)
Definition test_case {A} `{Truthy A} (test_fn : M (A * string))
    : M (OrFalse A) :=
  rm <- try_except
          (rm <- test_fn ;; ret (Got (fst rm), snd rm))
          recognized
          (fun exc =>
             ret (PyFalse,
                  class_name (exc_class exc) +:+ ": " +:+ exc_str exc)) ;;
  let result := fst rm in
  let msg := snd rm in
  s <- get_state ;;
  let request := str_of_request (last_request (client s)) in
  (if truthy result then
     modify (fun s => with_success_count (success_count s + 1) s) ;;
     if 0 <? verbosity s
     then print (Success ("✔: " +:+ request +:+ " - " +:+ msg))
     else ret tt
   else
     modify (fun s => with_failure_count (failure_count s + 1) s) ;;
     print (Failure ("✖: " +:+ request +:+ " - failed with error")) ;;
     for_each (split_on newline msg)
       (fun line => print (Warning (tab +:+ line)))) ;;
  ret result.

(** ** [ImplementationValidator] *)

(** [__init__] without the logger.  The trace of the world starts empty. *)
Definition new_validator (c : Client) (verb : Z) : State :=
  mkState c ∅ verb
    (py_set_union [] (map KStr REQUIRED_ENTRY_ENDPOINTS))
    None 0 0 [] 0 [].

Definition init (client_arg : option Client) (base_url_arg : option string)
    (verb : Z) : Exc + State :=
  match client_arg, base_url_arg with
  | None, None =>
      inl (mkExc RuntimeError
             "Need at least a URL or a client to initialize validator.")
  | Some c, Some b =>
      if truthy b
      then inl (mkExc RuntimeError
                  "Please specify at most one of base_url or client.")
      else inr (new_validator c verb)
  | Some c, None => inr (new_validator c verb)
  | None, Some b => inr (new_validator (mkClient b None None) verb)
  end.

(** [response.json()] *)
Definition json_of_response (r : Response) : M JSON :=
  match body r with
  | Some j => ret j
  | None => raise ValueError "Expecting value: line 1 column 1 (char 0)"
  end.

(** The call of a response class on the unpacked body: a body that is not
    an object cannot be unpacked into keyword arguments. *)
Definition validated {A} (parsed : string + A) (wrap : A -> Model) : M Model :=
  match parsed with
  | inl err => raise ValidationError err
  | inr a => ret (wrap a)
  end.

Definition construct (cls : ResponseClass) (kwargs : JSON) : M Model :=
  match kwargs with
  | JObj fields =>
      match cls with
      | InfoResponse => validated (parse_info env fields) MInfo
      | EntryInfoResponse =>
          validated (parse_entry_info env fields) (fun _ => MEntryInfo)
      | StructureResponseMany => validated (parse_many env fields) MMany
      | StructureResponseOne => validated (parse_one env fields) MOne
      end
  | _ => raise TypeError "argument after ** must be a mapping"
  end.

(** [serialize_attempt], decorated. *)
Definition serialize_attempt (response : OrFalse Response)
    (response_cls : ResponseClass) : M (OrFalse Model) :=
  test_case
    (match response with
     | Got r =>
         if negb (truthy r) then raise ResponseError "Request failed"
         else
           kwargs <- json_of_response r ;;
           m <- construct response_cls kwargs ;;
           ret (m, "serialized correctly as " +:+ repr_class env response_cls)
     | PyFalse => raise ResponseError "Request failed"
     end).

(** [get_endpoint], decorated. *)
Definition get_endpoint (request_str : string) : M (OrFalse Response) :=
  test_case
    (response <- Client_get request_str ;;
     if negb (status_code response =? 200)
     then raise ResponseError
            ("Request to endpoint " +:+ request_str +:+ " returned "
               +:+ str_of_int (status_code response))
     else ret (response, "request successful.")).

(** What [test_info_endpoints] returns: the model, the response when it
    did not validate, or [False]. *)
Inductive InfoResult : Type :=
| IModel (m : Model)
| IResponse (r : Response)
| IFalse.

Definition test_info_endpoints (request_str : string) : M InfoResult :=
  response <- get_endpoint request_str ;;
  match response with
  | Got r =>
      if truthy r then
        cls <- response_class (KStr request_str) ;;
        serialized <- serialize_attempt response cls ;;
        match serialized with
        | Got m => ret (IModel m)
        | PyFalse => ret (IResponse r)
        end
      else ret IFalse
  | PyFalse => ret IFalse
  end.

(** [d[key]] on a parsed JSON object: of two equal keys the later wins. *)
Fixpoint obj_get (key : string) (fields : list (string * JSON)) : option JSON :=
  match fields with
  | [] => None
  | (k, v) :: rest =>
      match obj_get key rest with
      | Some v' => Some v'
      | None => if String.eqb k key then Some v else None
      end
  end.

(** [j[key]] for a string [key]. *)
Definition subscript (j : JSON) (key : string) : Exc + JSON :=
  match j with
  | JObj fields =>
      match obj_get key fields with
      | Some v => inr v
      | None => inl (mkExc KeyError key)
      end
  | JArr _ =>
      inl (mkExc TypeError "list indices must be integers or slices, not str")
  | JStr _ => inl (mkExc TypeError "string indices must be integers")
  | JNull => inl (mkExc TypeError "'NoneType' object is not subscriptable")
  | JBool _ => inl (mkExc TypeError "'bool' object is not subscriptable")
  | JNum _ => inl (mkExc TypeError "'int' object is not subscriptable")
  end.

Definition and_then {A B} (r : Exc + A) (k : A -> Exc + B) : Exc + B :=
  match r with
  | inl e => inl e
  | inr a => k a
  end.

(** [j["data"]["attributes"]["entry_types_by_format"]["json"]] *)
Definition manual_extract (j : JSON) : Exc + JSON :=
  and_then (subscript j "data") (fun d =>
  and_then (subscript d "attributes") (fun a =>
  and_then (subscript a "entry_types_by_format") (fun e =>
  subscript e "json"))).

(** [hash(j)]: lists and dicts are unhashable. *)
Definition hashable (j : JSON) : Exc + PyKey :=
  match j with
  | JNull => inr KNone
  | JBool b => inr (KBool b)
  | JNum n => inr (KInt n)
  | JStr s => inr (KStr s)
  | JArr _ => inl (mkExc TypeError "unhashable type: 'list'")
  | JObj _ => inl (mkExc TypeError "unhashable type: 'dict'")
  end.

Fixpoint hashables (l : list JSON) : Exc + list PyKey :=
  match l with
  | [] => inr []
  | j :: rest =>
      and_then (hashable j) (fun k =>
      and_then (hashables rest) (fun ks => inr (k :: ks)))
  end.

(** The characters of a string, each as a string. *)
Fixpoint chars (s : string) : list string :=
  match s with
  | EmptyString => []
  | String c rest => String c EmptyString :: chars rest
  end.

(** [set(v)]: the elements of a list, the characters of a string, the keys
    of a dict; anything else is not iterable. *)
Definition py_set_of (v : JSON) : Exc + PySet :=
  match v with
  | JArr items =>
      and_then (hashables items) (fun ks => inr (py_set_union [] ks))
  | JStr s => inr (py_set_union [] (map KStr (chars s)))
  | JObj fields => inr (py_set_union [] (map (fun kv => KStr (fst kv)) fields))
  | JNull => inl (mkExc TypeError "'NoneType' object is not iterable")
  | JBool _ => inl (mkExc TypeError "'bool' object is not iterable")
  | JNum _ => inl (mkExc TypeError "'int' object is not iterable")
  end.

(** [base_info.data.attributes.entry_types_by_format.get("json")]: only an
    [InfoResponse] has this chain of attributes; [dict.get] gives [None] for
    a missing key.  A list of strings is carried as a JSON array. *)
Definition entry_types_json (base_info : InfoResult) : Exc + JSON :=
  match base_info with
  | IModel (MInfo entry_types_by_format) =>
      match entry_types_by_format !! "json" with
      | Some l => inr (JArr (map JStr l))
      | None => inr JNull
      end
  | IModel _ =>
      inl (mkExc AttributeError "object has no attribute 'attributes'")
  | IResponse _ =>
      inl (mkExc AttributeError "'Response' object has no attribute 'data'")
  | IFalse =>
      inl (mkExc AttributeError "'bool' object has no attribute 'data'")
  end.

Definition dquote : string := String (ascii_of_nat 34) EmptyString.

Definition unserializable (shown : string) : Exc :=
  mkExc ResponseError
    ("Unable to get entry_types_by_format from unserializable base info response "
       +:+ shown +:+ ".").

(** The part of [get_available_endpoints] after the first [try] failed:
    [base_info.json()] and the manual extraction.  [False] has no [json];
    the [json()] of a pydantic model is its dump, a non-empty string, which
    no key subscripts. *)
Definition manual_fallback (base_info : InfoResult) : M JSON :=
  match base_info with
  | IFalse => raise AttributeError "'bool' object has no attribute 'json'"
  | IModel m => reraise (unserializable (repr_model env m))
  | IResponse r =>
      j <- json_of_response r ;;
      if negb (truthy j)
      then raise ResponseError "Unable to get entry types from base info endpoint"
      else
        try_except (lift (manual_extract j))
          (fun c => match c with KeyError | TypeError => true | _ => false end)
          (fun _ => reraise (unserializable (str_of_response r)))
  end.

(** [get_available_endpoints], decorated.  The body of [for i in [0]] ends
    in [break] or in an exception each time, so the [else] of the loop never
    runs. *)
Definition get_available_endpoints (base_info : InfoResult) : M (OrFalse JSON) :=
  test_case
    (available_json_entry_endpoints <-
       match entry_types_json base_info with
       | inr v => ret v
       | inl _ => manual_fallback base_info
       end ;;
     found <- lift (py_set_of available_json_entry_endpoints) ;;
     modify (fun s =>
       with_test_entry_endpoints
         (py_set_union (test_entry_endpoints s) found) s) ;;
     s <- get_state ;;
     if py_in (KStr "info") (test_entry_endpoints s)
     then raise ResponseError
            ("Illegal entry " +:+ dquote +:+ "info" +:+ dquote
               +:+ " was found in entry_types_by_format" +:+ dquote)
     else ret (available_json_entry_endpoints,
               "successfully found available entry types in baseinfo")).

(** [get_single_id_from_multi_endpoint], decorated.  Only the [data] of a
    [StructureResponseMany] is a list; [len] of any other [data] raises. *)
Definition get_single_id_from_multi_endpoint (serialized : OrFalse Model)
    : M (OrFalse string) :=
  test_case
    (match serialized with
     | Got (MMany data) =>
         match data with
         | first :: _ =>
             modify (fun s =>
               with_test_id_by_type
                 (<[res_type first := res_id first]> (test_id_by_type s)) s) ;;
             s <- get_state ;;
             match test_id_by_type s !! res_type first with
             | Some test_id =>
                 ret (test_id,
                      "successfully scraped test ID from " +:+ res_type first
                        +:+ " endpoint")
             | None => raise KeyError (res_type first)
             end
         | [] =>
             raise ResponseError
               "No entries found under endpoint to scrape ID from."
         end
     | Got _ => raise TypeError "object has no len()"
     | PyFalse =>
         raise ResponseError "No entries found under endpoint to scrape ID from."
     end).

Definition test_multi_entry_endpoint (request_str : PyKey) : M unit :=
  response <- get_endpoint (py_str request_str) ;;
  cls <- response_class request_str ;;
  serialized <- serialize_attempt response cls ;;
  _ <- get_single_id_from_multi_endpoint serialized ;;
  ret tt.

(** [_type in self.test_id_by_type]: the keys of the registry are strings. *)
Definition registered (_type : PyKey) (registry : gmap string string) : bool :=
  match _type with
  | KStr t => bool_decide (is_Some (registry !! t))
  | _ => false
  end.

(** The name [test_id] in [test_single_entry_endpoint] is bound neither in
    the function nor in the module: its evaluation raises. *)
Definition unbound_test_id : M string :=
  raise NameError "name 'test_id' is not defined".

(** [_type + "/"] *)
Definition add_slash (_type : PyKey) : M PyKey :=
  match _type with
  | KStr t => ret (KStr (t +:+ "/"))
  | _ => raise TypeError "unsupported operand type(s) for +"
  end.

Definition test_single_entry_endpoint (_type : PyKey) : M unit :=
  s <- get_state ;;
  if registered _type (test_id_by_type s) then
    test_id <- unbound_test_id ;;
    response <- get_endpoint (py_str _type +:+ "/" +:+ test_id) ;;
    if truthy response then
      key <- add_slash _type ;;
      cls <- response_class key ;;
      _ <- serialize_attempt response cls ;;
      ret tt
    else ret tt
  else ret tt.

#[global] Instance truthy_Z : Truthy Z := fun n => negb (n =? 0).

(** The four stages of [main], in its order. *)
Definition base_info_stage : M unit :=
  base_info <- test_info_endpoints BASE_INFO_ENDPOINT ;;
  _ <- get_available_endpoints base_info ;;
  ret tt.

Definition entry_info_stage : M unit :=
  s <- get_state ;;
  for_each (test_entry_endpoints s)
    (fun endp =>
       let entry_info_endpoint := BASE_INFO_ENDPOINT +:+ "/" +:+ py_str endp in
       _ <- test_info_endpoints entry_info_endpoint ;;
       ret tt).

Definition multi_entry_stage : M unit :=
  s <- get_state ;;
  for_each (test_entry_endpoints s) test_multi_entry_endpoint.

Definition single_entry_stage : M unit :=
  s <- get_state ;;
  for_each (test_entry_endpoints s) test_single_entry_endpoint.

(** [ImplementationValidator.main] *)
Definition main : M unit :=
  base_info_stage ;;
  entry_info_stage ;;
  multi_entry_stage ;;
  single_entry_stage ;;
  modify (fun s => with_valid (Some (negb (truthy (failure_count s)))) s).

(** The exit status chosen at the end of the script. *)
Definition exit_code (v : option bool) : Z :=
  match v with
  | None => 2
  | Some false => 1
  | Some true => 0
  end.

(** The [__main__] block: the validator is built from the base URL, any
    exception out of [main] is caught, and the exit status is read off
    [valid].  The result is the exit status with the final state. *)
Definition script (base_url_arg : string) (verb : Z) : Z * State :=
  match init None (Some base_url_arg) verb with
  | inl _ => (1, new_validator (mkClient base_url_arg None None) verb)
  | inr validator =>
      let s := snd (try_except main (fun _ => true) (fun _ => ret tt) validator) in
      (exit_code (valid s), s)
  end.

End Validator.

(** ** Servers and validators to run the model on *)

Module Scenario.

Definition strings_of (j : JSON) : option (list string) :=
  match j with
  | JArr items =>
      fold_right
        (fun item acc =>
           match item, acc with
           | JStr s, Some l => Some (s :: l)
           | _, _ => None
           end)
        (Some []) items
  | _ => None
  end.

(** An [InfoResponse] parser: [data.attributes.entry_types_by_format] must
    be an object whose values are lists of strings. *)
Definition parse_formats (fields : list (string * JSON))
    : string + gmap string (list string) :=
  match and_then (subscript (JObj fields) "data") (fun d =>
        and_then (subscript d "attributes") (fun a =>
        subscript a "entry_types_by_format")) with
  | inr (JObj formats) =>
      fold_right
        (fun kv acc =>
           match strings_of (snd kv), acc with
           | Some l, inr m => inr (<[fst kv := l]> m)
           | _, _ => inl "entry_types_by_format: value is not a valid list"
           end)
        (inr ∅) (rev formats)
  | _ => inl "data -> attributes -> entry_types_by_format: field required"
  end.

Definition entry_of (j : JSON) : option EntryResource :=
  match subscript j "type", subscript j "id" with
  | inr (JStr t), inr (JStr i) => Some (mkEntry t i)
  | _, _ => None
  end.

(** A [StructureResponseMany] parser: [data] must be a list of resources
    with a string [type] and a string [id]. *)
Definition parse_listing (fields : list (string * JSON))
    : string + list EntryResource :=
  match subscript (JObj fields) "data" with
  | inr (JArr items) =>
      fold_right
        (fun item acc =>
           match entry_of item, acc with
           | Some e, inr l => inr (e :: l)
           | _, _ => inl "data: value is not a valid resource"
           end)
        (inr []) items
  | _ => inl "data: field required"
  end.

Definition parse_single (fields : list (string * JSON)) : string + EntryResource :=
  match subscript (JObj fields) "data" with
  | inr d =>
      match entry_of d with
      | Some e => inr e
      | None => inl "data: value is not a valid resource"
      end
  | inl _ => inl "data: field required"
  end.

Definition parse_any (fields : list (string * JSON)) : string + unit :=
  match subscript (JObj fields) "data" with
  | inr _ => inr tt
  | inl _ => inl "data: field required"
  end.

Definition show_class (cls : ResponseClass) : string :=
  match cls with
  | InfoResponse => "<class 'optimade.models.InfoResponse'>"
  | EntryInfoResponse => "<class 'optimade.models.EntryInfoResponse'>"
  | StructureResponseMany => "<class 'optimade.models.StructureResponseMany'>"
  | StructureResponseOne => "<class 'optimade.models.StructureResponseOne'>"
  end.

(** The environment of a server given by its answer to each request. *)
Definition serving (answer : nat -> string -> Exc + Response) : Env :=
  mkEnv answer parse_formats parse_any parse_listing parse_single
    show_class (fun _ => "<model>").

Definition url : string := "http://localhost:5000".

Definition info_fields (types : JSON) : list (string * JSON) :=
  [("data",
    JObj [("attributes",
           JObj [("entry_types_by_format", types)])])].

Definition info_body (types : JSON) : JSON := JObj (info_fields types).

(** The base info document that lists [structures] as its only entry type
    in the JSON format. *)
Definition structures_only : list (string * JSON) :=
  info_fields (JObj [("json", JArr [JStr "structures"])]).

Definition resource (t i : string) : JSON :=
  JObj [("type", JStr t); ("id", JStr i)].

Definition ok (j : JSON) : Exc + Response := inr (mkResponse 200 (Some j)).
Definition status (code : Z) : Exc + Response := inr (mkResponse code None).

(** A server with one structure, [abc]. *)
Definition one_structure (k : nat) (u : string) : Exc + Response :=
  if String.eqb u (url +:+ "/info")
  then ok (JObj structures_only)
  else if String.eqb u (url +:+ "/info/structures")
  then ok (JObj [("data", JObj [])])
  else if String.eqb u (url +:+ "/structures")
  then ok (JObj [("data", JArr [resource "structures" "abc"])])
  else if String.eqb u (url +:+ "/structures/abc")
  then ok (JObj [("data", resource "structures" "abc")])
  else status 404.

(** The same server, except that [info] is answered by [answer]. *)
Definition with_info (answer : Exc + Response) (k : nat) (u : string)
    : Exc + Response :=
  if String.eqb u (url +:+ "/info") then answer else one_structure k u.

(** A server that also lists [info] among its entry types. *)
Definition lists_info : nat -> string -> Exc + Response :=
  with_info (ok (info_body (JObj [("json", JArr [JStr "structures"; JStr "info"])]))).

(** A server that also lists [calculations]. *)
Definition two_types : nat -> string -> Exc + Response :=
  with_info
    (ok (info_body (JObj [("json", JArr [JStr "structures"; JStr "calculations"])]))).

(** A server whose formats do not include JSON. *)
Definition xml_only : nat -> string -> Exc + Response :=
  with_info (ok (info_body (JObj [("xml", JArr [JStr "structures"])]))).

(** A server whose [info] endpoint is broken. *)
Definition info_broken : nat -> string -> Exc + Response :=
  with_info (status 500).

(** A server whose listing of structures starts with a resource of another
    type. *)
Definition mislabelled (k : nat) (u : string) : Exc + Response :=
  if String.eqb u (url +:+ "/structures")
  then ok (JObj [("data", JArr [resource "calculations" "x"])])
  else one_structure k u.

(** A server that is rate limited for its first [n] requests. *)
Definition throttled (n : nat) (k : nat) (u : string) : Exc + Response :=
  if (k <? n)%nat then status 429 else one_structure k u.

(** A fresh validator for the server at [url]. *)
Definition fresh : State := new_validator (mkClient url None None) 0.

End Scenario.

(** ** Vocabulary of the statements

    Names for the states that the steps of a run leave behind and for the
    exceptions that they raise, so that the lemmas below can say what each
    step does to the state. *)

Section Vocabulary.

Variable env : Env.

Definition exhausted : Exc :=
  mkExc ResponseError "Hit max (manual) retries on request.".

(** The fields of the validator proper: everything but the client and the
    trace of the world. *)
Definition same_validator (s s' : State) : Prop :=
  test_id_by_type s' = test_id_by_type s /\
  verbosity s' = verbosity s /\
  test_entry_endpoints s' = test_entry_endpoints s /\
  valid s' = valid s /\
  success_count s' = success_count s /\
  failure_count s' = failure_count s.

(** The state after the success branch of the wrapper. *)
Definition record_success (msg : string) (s : State) : State :=
  with_stdout
    (stdout s ++
       (if 0 <? verbosity s
        then [Success ("✔: " +:+ str_of_request (last_request (client s))
                         +:+ " - " +:+ msg)]
        else []))
    (with_success_count (success_count s + 1) s).

(** The lines printed for a failure with message [msg]. *)
Definition failure_lines (request : option string) (msg : string) : list Line :=
  Failure ("✖: " +:+ str_of_request request +:+ " - failed with error")
    :: map (fun line => Warning (tab +:+ line)) (split_on newline msg).

(** The state after the failure branch of the wrapper. *)
Definition record_failure (msg : string) (s : State) : State :=
  with_stdout (stdout s ++ failure_lines (last_request (client s)) msg)
    (with_failure_count (failure_count s + 1) s).

(** [str(exc)] prefixed by the name of its class. *)
Definition describe (exc : Exc) : string :=
  class_name (exc_class exc) +:+ ": " +:+ exc_str exc.

(** The state after a request to [url] that was answered by [r] at once. *)
Definition after_get (url : string) (r : Response) (s : State) : State :=
  with_client (mkClient (base_url (client s)) (Some url) (Some r))
    (with_requested (requested s ++ [url]) s).

Definition bad_status (request : string) (r : Response) : Exc :=
  mkExc ResponseError
    ("Request to endpoint " +:+ request +:+ " returned "
       +:+ str_of_int (status_code r)).

(** The pydantic constructor of a class, on the fields of an object. *)
Definition parse (cls : ResponseClass) (fields : list (string * JSON))
    : string + Model :=
  match cls with
  | InfoResponse =>
      match parse_info env fields with inl e => inl e | inr a => inr (MInfo a) end
  | EntryInfoResponse =>
      match parse_entry_info env fields with inl e => inl e | inr _ => inr MEntryInfo end
  | StructureResponseMany =>
      match parse_many env fields with inl e => inl e | inr a => inr (MMany a) end
  | StructureResponseOne =>
      match parse_one env fields with inl e => inl e | inr a => inr (MOne a) end
  end.

(** The first statement of [get_available_endpoints]: the list of entry
    types, from the model or by hand. *)
Definition available (base_info : InfoResult) : M JSON :=
  match entry_types_json base_info with
  | inr v => ret v
  | inl _ => manual_fallback env base_info
  end.

Definition illegal_info : Exc :=
  mkExc ResponseError
    ("Illegal entry " +:+ dquote +:+ "info" +:+ dquote
       +:+ " was found in entry_types_by_format" +:+ dquote).

Definition found_msg : string :=
  "successfully found available entry types in baseinfo".

(** The working set after the union with what was found. *)
Definition unioned (found : PySet) (s : State) : State :=
  with_test_entry_endpoints (py_set_union (test_entry_endpoints s) found) s.

Definition is_str (k : PyKey) : Prop := exists t, k = KStr t.

Definition no_entries : Exc :=
  mkExc ResponseError "No entries found under endpoint to scrape ID from.".

Definition scraped_msg (first : EntryResource) : string :=
  "successfully scraped test ID from " +:+ res_type first +:+ " endpoint".

(** The registry after the type and id of [first] were scraped. *)
Definition scraped (first : EntryResource) (s : State) : State :=
  with_test_id_by_type
    (<[res_type first := res_id first]> (test_id_by_type s)) s.

(** The state after the listing of [endp] was fetched and validated. *)
Definition listed (endp : string) (r : Response) (s : State) : State :=
  record_success
    ("serialized correctly as " +:+ repr_class env StructureResponseMany)
    (record_success "request successful."
       (after_get (base_url (client s) +:+ "/" +:+ endp) r s)).

(** The first three stages of [main]. *)
Definition discovery_and_listing : M unit :=
  base_info_stage env ;; entry_info_stage env ;; multi_entry_stage env.

Definition unbound : Exc := mkExc NameError "name 'test_id' is not defined".

End Vocabulary.

(** ** What a run may and may not do to the state *)

Definition is_failure_line (l : Line) : bool :=
  match l with Failure _ => true | _ => false end.

Definition is_success_line (l : Line) : bool :=
  match l with Success _ => true | _ => false end.

(** The number of lines of [out] that satisfy [p]. *)
Definition lines_in (p : Line -> bool) (out : list Line) : Z :=
  Z.of_nat (length (List.filter p out)).

(** [u] is a URL under the base URL [b]. *)
Definition under (b u : string) : Prop := exists path, u = b +:+ "/" +:+ path.

(** [Progress s s']: [s'] can follow [s] in a run.  The counters and the
    seconds slept do not decrease; [valid], [verbosity] and the base URL are
    kept; the working set keeps its members; the log of requests is extended
    by URLs under the base URL, at least as many as seconds were slept; the
    output is extended by as many failure lines as failures were counted,
    and by as many success lines as successes were counted when the
    verbosity is positive, by none otherwise. *)
Record Progress (s s' : State) : Prop := mkProgress {
  successes_grow : success_count s <= success_count s';
  failures_grow : failure_count s <= failure_count s';
  valid_kept : valid s' = valid s;
  verbosity_kept : verbosity s' = verbosity s;
  base_url_kept : base_url (client s') = base_url (client s);
  endpoints_grow :
    forall k, py_in k (test_entry_endpoints s) = true ->
              py_in k (test_entry_endpoints s') = true;
  requests_extend :
    exists urls,
      requested s' = requested s ++ urls /\
      Forall (under (base_url (client s))) urls /\
      slept s <= slept s' <= slept s + Z.of_nat (length urls);
  output_extends :
    exists out,
      stdout s' = stdout s ++ out /\
      lines_in is_failure_line out = failure_count s' - failure_count s /\
      lines_in is_success_line out
      = if 0 <? verbosity s then success_count s' - success_count s else 0
}.

(** A computation all of whose runs make progress, however they end. *)
Definition steady {A} (m : M A) : Prop :=
  forall s : State, Progress s (snd (m s)).

(** The four stages of [main], before [valid] is set. *)
Definition stages (env : Env) : M unit :=
  base_info_stage env ;;
  entry_info_stage env ;;
  multi_entry_stage env ;;
  single_entry_stage env.

(** [valid] as [main] sets it from the failures counted in [s]. *)
Definition concluded (s : State) : State :=
  with_valid (Some (negb (truthy (failure_count s)))) s.

(** [sep.join(l)] for the separator of one character [sep]. *)
Fixpoint join_with (sep : ascii) (l : list string) : string :=
  match l with
  | [] => EmptyString
  | x :: rest =>
      match rest with
      | [] => x
      | _ :: _ => x +:+ String sep (join_with sep rest)
      end
  end.

(** [c in s] for a character [c]. *)
Fixpoint contains (c : ascii) (s : string) : bool :=
  match s with
  | EmptyString => false
  | String d rest => Ascii.eqb d c || contains c rest
  end.

(** ** Servers that misbehave *)

Module Faults.

Import Scenario.

(** No server at all: every request fails in [requests]. *)
Definition unreachable (k : nat) (u : string) : Exc + Response :=
  inl (mkExc ConnectionError "Connection refused").

(** The formats of this base info document do not validate, as one of them
    is not a list; its JSON format lists two entry types. *)
Definition loose_formats : JSON :=
  JObj [("json", JArr [JStr "structures"; JStr "calculations"]);
        ("xml", JNum 5)].

Definition loosely_described : nat -> string -> Exc + Response :=
  with_info (ok (info_body loose_formats)).

(** A base info document without attributes. *)
Definition bare_info : list (string * JSON) := [("data", JObj [])].

Definition barely_described : nat -> string -> Exc + Response :=
  with_info (ok (JObj bare_info)).

(** A base info document whose JSON format is [null]. *)
Definition null_formats : JSON := info_body (JObj [("json", JNull)]).

(** A server that describes calculations under [info/calculations]. *)
Definition describes_calculations (k : nat) (u : string) : Exc + Response :=
  if String.eqb u (url +:+ "/info/calculations")
  then ok (JObj [("data", JObj [])])
  else two_types k u.

(** A server whose listing of structures holds no list. *)
Definition broken_listing (k : nat) (u : string) : Exc + Response :=
  if String.eqb u (url +:+ "/structures")
  then ok (JObj [("data", JNum 5)])
  else one_structure k u.

(** A server without any structure. *)
Definition no_structure (k : nat) (u : string) : Exc + Response :=
  if String.eqb u (url +:+ "/structures")
  then ok (JObj [("data", JArr [])])
  else one_structure k u.

(** A server whose base info document lists [calculations] and does not
    list [structures]. *)
Definition lists_calculations : nat -> string -> Exc + Response :=
  with_info (ok (info_body (JObj [("json", JArr [JStr "calculations"])]))).

End Faults.

(** * Properties *)

(** ** [Client.get] *)

Section ClientFacts.

Variable env : Env.

Lemma get_attempts_rate_limited (m : nat) (url : string) :
  forall s : State,
    (forall i, (i < m)%nat ->
       exists r, requests_get env (length (requested s) + i) url = inr r /\
                 status_code r = 429) ->
    exists s',
      get_attempts env m url s = (Raise exhausted, s') /\
      requested s' = requested s ++ repeat url m /\
      slept s' = slept s + Z.of_nat m /\
      same_validator s s'.
Proof.
  induction m as [|m IH]; intros s Hlim.
  - exists s. cbn. rewrite app_nil_r. unfold same_validator. repeat split; lia.
  - destruct (Hlim 0%nat ltac:(lia)) as (r & Hr & Hcode).
    rewrite Nat.add_0_r in Hr.
    cbn [get_attempts]. unfold bind at 1. unfold http_get at 1. rewrite Hr.
    unfold bind at 1. cbn [modify]. rewrite Hcode. cbn [Z.eqb Pos.eqb negb].
    unfold bind at 1. cbn [print modify]. unfold bind at 1. cbn [sleep modify].
    match goal with |- context [get_attempts env m url ?t] => set (s1 := t) end.
    destruct (IH s1) as (s' & Hrun & Hreq & Hslept & Hsame).
    { intros i Hi. destruct (Hlim (S i) ltac:(lia)) as (r' & Hr' & Hc').
      exists r'. split; [|exact Hc'].
      subst s1. cbn. rewrite length_app. cbn [length].
      replace (length (requested s) + 1 + i)%nat with (length (requested s) + S i)%nat by lia.
      exact Hr'. }
    exists s'. split; [exact Hrun|].
    subst s1. cbn in Hreq, Hslept. unfold same_validator in *. cbn in Hsame.
    repeat split; try tauto.
    + rewrite Hreq. rewrite <- app_assoc. reflexivity.
    + lia.
Qed.

Lemma get_attempts_returns (n : nat) (url : string) (r : Response) :
  forall (m : nat) (s : State),
    (n < m)%nat ->
    (forall i, (i < n)%nat ->
       exists r', requests_get env (length (requested s) + i) url = inr r' /\
                  status_code r' = 429) ->
    requests_get env (length (requested s) + n) url = inr r ->
    status_code r <> 429 ->
    exists s',
      get_attempts env m url s = (Return r, s') /\
      requested s' = requested s ++ repeat url (S n) /\
      slept s' = slept s + Z.of_nat n /\
      same_validator s s'.
Proof.
  induction n as [|n IH]; intros m s Hm Hlim Hlast Hcode.
  - destruct m as [|m]; [lia|].
    rewrite Nat.add_0_r in Hlast.
    cbn [get_attempts]. unfold bind at 1. unfold http_get at 1. rewrite Hlast.
    unfold bind at 1. cbn [modify].
    destruct (Z.eqb_spec (status_code r) 429) as [E|_]; [contradiction|].
    cbn [negb ret]. eexists. split; [reflexivity|].
    cbn. unfold same_validator. cbn. repeat split; lia.
  - destruct m as [|m]; [lia|].
    destruct (Hlim 0%nat ltac:(lia)) as (r0 & Hr0 & Hc0).
    rewrite Nat.add_0_r in Hr0.
    cbn [get_attempts]. unfold bind at 1. unfold http_get at 1. rewrite Hr0.
    unfold bind at 1. cbn [modify]. rewrite Hc0. cbn [Z.eqb Pos.eqb negb].
    unfold bind at 1. cbn [print modify]. unfold bind at 1. cbn [sleep modify].
    match goal with |- context [get_attempts env m url ?t] => set (s1 := t) end.
    assert (Hlen : length (requested s1) = S (length (requested s))).
    { subst s1. cbn. rewrite length_app. cbn. lia. }
    destruct (IH m s1) as (s' & Hrun & Hreq & Hslept & Hsame).
    + lia.
    + intros i Hi. destruct (Hlim (S i) ltac:(lia)) as (r' & Hr' & Hc').
      exists r'. split; [|exact Hc'].
      rewrite Hlen. replace (S (length (requested s)) + i)%nat
        with (length (requested s) + S i)%nat by lia. exact Hr'.
    + rewrite Hlen. replace (S (length (requested s)) + n)%nat
        with (length (requested s) + S n)%nat by lia. exact Hlast.
    + exact Hcode.
    + exists s'. split; [exact Hrun|].
      subst s1. cbn in Hreq, Hslept. unfold same_validator in *. cbn in Hsame.
      repeat split; try tauto.
      * rewrite Hreq. rewrite <- app_assoc. reflexivity.
      * lia.
Qed.

End ClientFacts.

(** C3.  When the next [n] answers to a GET are HTTP 429 and the one after
    them is a 200, [Client.get] returns that 200 response after sleeping
    [n] times one second if [n < 5], having sent [n + 1] requests; if
    [5 <= n] it raises the retries-exhausted [ResponseError] after exactly
    five requests, and sends no sixth. *)
Theorem Client_get_retries (env : Env) (s : State) (request : string)
    (n : nat) (r200 : Response) :
  let url := base_url (client s) +:+ "/" +:+ request in
  let k := length (requested s) in
  (forall i, (i < n)%nat ->
     exists r, requests_get env (k + i) url = inr r /\ status_code r = 429) ->
  requests_get env (k + n) url = inr r200 ->
  status_code r200 = 200 ->
  ((n < 5)%nat ->
     exists s',
       Client_get env request s = (Return r200, s') /\
       slept s' = slept s + Z.of_nat n /\
       requested s' = requested s ++ repeat url (S n)) /\
  ((5 <= n)%nat ->
     exists s',
       Client_get env request s = (Raise exhausted, s') /\
       requested s' = requested s ++ repeat url 5).
Proof.
  intros url k Hlim Hlast Hcode.
  unfold Client_get. unfold bind at 1. cbn [get_state].
  unfold bind at 1. cbn [modify].
  match goal with |- context [get_attempts env _ _ ?t] => set (s1 := t) end.
  fold url.
  change (Z.to_nat MAX_RETRIES) with 5%nat.
  split; intros Hn.
  - destruct (get_attempts_returns env n url r200 5 s1) as (s' & Hrun & Hreq & Hslept & _);
      [lia | exact Hlim | exact Hlast | lia |].
    exists s'. repeat split; assumption.
  - destruct (get_attempts_rate_limited env 5 url s1) as (s' & Hrun & Hreq & _).
    { intros i Hi. apply Hlim. lia. }
    exists s'. split; assumption.
Qed.

(** ** Running one statement after another *)

Lemma bind_return {A B} (m : M A) (k : A -> M B) (s s1 : State) (a : A) :
  m s = (Return a, s1) -> bind m k s = k a s1.
Proof. intros Hm. unfold bind. rewrite Hm. reflexivity. Qed.

Lemma bind_raise {A B} (m : M A) (k : A -> M B) (s s1 : State) (e : Exc) :
  m s = (Raise e, s1) -> bind m k s = (Raise e, s1).
Proof. intros Hm. unfold bind. rewrite Hm. reflexivity. Qed.

(** ** What the decorator leaves behind *)

Lemma for_each_print {B} (f : B -> Line) (l : list B) :
  forall s : State,
    for_each l (fun x => print (f x)) s
    = (Return tt, with_stdout (stdout s ++ map f l) s).
Proof.
  induction l as [|x l IH]; intros s.
  - cbn. rewrite app_nil_r. destruct s; reflexivity.
  - cbn [for_each]. unfold bind, print, modify. rewrite IH.
    cbn. rewrite <- app_assoc. reflexivity.
Qed.

Section Wrapper.

Context {A : Type} `{Truthy A}.
Variable test_fn : M (A * string).

Lemma test_case_pass (s s1 : State) (a : A) (msg : string) :
  test_fn s = (Return (a, msg), s1) ->
  truthy a = true ->
  test_case test_fn s = (Return (Got a), record_success msg s1).
Proof.
  intros Hrun Ha. unfold test_case, try_except, bind. rewrite Hrun.
  cbn. rewrite Ha.
  unfold bind, modify, record_success. cbn.
  destruct (0 <? verbosity s1); cbn; [reflexivity|].
  rewrite app_nil_r. destruct s1; reflexivity.
Qed.

Lemma test_case_falsy (s s1 : State) (a : A) (msg : string) :
  test_fn s = (Return (a, msg), s1) ->
  truthy a = false ->
  test_case test_fn s = (Return (Got a), record_failure msg s1).
Proof.
  intros Hrun Ha. unfold test_case, try_except, bind. rewrite Hrun.
  cbn. rewrite Ha.
  rewrite (for_each_print (fun line => Warning (tab +:+ line))). cbn.
  unfold record_failure, failure_lines. cbn.
  rewrite <- app_assoc. reflexivity.
Qed.

Lemma test_case_caught (s s1 : State) (exc : Exc) :
  test_fn s = (Raise exc, s1) ->
  recognized (exc_class exc) = true ->
  test_case test_fn s = (Return PyFalse, record_failure (describe exc) s1).
Proof.
  intros Hrun Hexc. unfold test_case, try_except, bind. rewrite Hrun.
  rewrite Hexc. cbn.
  rewrite (for_each_print (fun line => Warning (tab +:+ line))). cbn.
  unfold record_failure, failure_lines, describe. cbn.
  rewrite <- app_assoc. reflexivity.
Qed.

Lemma test_case_uncaught (s s1 : State) (exc : Exc) :
  test_fn s = (Raise exc, s1) ->
  recognized (exc_class exc) = false ->
  test_case test_fn s = (Raise exc, s1).
Proof.
  intros Hrun Hexc. unfold test_case, try_except, bind. rewrite Hrun.
  rewrite Hexc. reflexivity.
Qed.

End Wrapper.

Lemma recognized_iff (c : ExcClass) :
  recognized c = true <->
  c = ResponseError \/ c = ValidationError \/ c = ManualValidationError.
Proof.
  destruct c; cbn; split; intros Hc; try discriminate; auto;
    destruct Hc as [Hc|[Hc|Hc]]; discriminate.
Qed.

(** ** Projections of the states that the steps leave behind *)

(** Reading a field off a state that the steps above have built. *)
Ltac fields :=
  cbn [success_count failure_count test_id_by_type test_entry_endpoints
       requested client verbosity valid slept stdout
       base_url last_request response
       record_success record_failure after_get
       with_client with_requested with_stdout with_failure_count
       with_success_count with_test_entry_endpoints with_test_id_by_type
       with_valid with_slept].

Section Steps.

Variable env : Env.

Lemma Client_get_at_once (request : string) (r : Response) (s : State) :
  let url := base_url (client s) +:+ "/" +:+ request in
  requests_get env (length (requested s)) url = inr r ->
  status_code r <> 429 ->
  Client_get env request s = (Return r, after_get url r s).
Proof.
  intros url Hr Hcode. unfold Client_get, bind, get_state, modify.
  change (Z.to_nat MAX_RETRIES) with 5%nat. cbn [get_attempts].
  unfold bind, http_get, modify. fold url.
  cbn [requested with_client with_requested]. rewrite Hr.
  destruct (Z.eqb_spec (status_code r) 429) as [E|_]; [contradiction|].
  reflexivity.
Qed.

Lemma get_endpoint_ok (request : string) (r : Response) (s : State) :
  let url := base_url (client s) +:+ "/" +:+ request in
  requests_get env (length (requested s)) url = inr r ->
  status_code r = 200 ->
  get_endpoint env request s
  = (Return (Got r), record_success "request successful." (after_get url r s)).
Proof.
  intros url Hr Hcode. unfold get_endpoint.
  apply test_case_pass.
  - unfold bind. rewrite (Client_get_at_once request r s Hr) by lia.
    rewrite Hcode. reflexivity.
  - unfold truthy, truthy_Response. rewrite Hcode. reflexivity.
Qed.

Lemma get_endpoint_bad (request : string) (r : Response) (s : State) :
  let url := base_url (client s) +:+ "/" +:+ request in
  requests_get env (length (requested s)) url = inr r ->
  status_code r <> 429 ->
  status_code r <> 200 ->
  get_endpoint env request s
  = (Return PyFalse,
     record_failure (describe (bad_status request r)) (after_get url r s)).
Proof.
  intros url Hr H429 H200. unfold get_endpoint.
  apply test_case_caught; [|reflexivity].
  unfold bind. rewrite (Client_get_at_once request r s Hr) by assumption.
  destruct (Z.eqb_spec (status_code r) 200) as [E|_]; [contradiction|].
  reflexivity.
Qed.

Lemma construct_parse (cls : ResponseClass) (fields : list (string * JSON)) :
  construct env cls (JObj fields)
  = match parse env cls fields with
    | inl err => raise ValidationError err
    | inr m => ret m
    end.
Proof.
  unfold construct, parse, validated.
  destruct cls;
    [ destruct (parse_info env fields)
    | destruct (parse_entry_info env fields)
    | destruct (parse_many env fields)
    | destruct (parse_one env fields) ]; reflexivity.
Qed.

Lemma serialize_attempt_ok (r : Response) (cls : ResponseClass)
    (fields : list (string * JSON)) (m : Model) (s : State) :
  status_code r = 200 ->
  body r = Some (JObj fields) ->
  parse env cls fields = inr m ->
  serialize_attempt env (Got r) cls s
  = (Return (Got m),
     record_success ("serialized correctly as " +:+ repr_class env cls) s).
Proof.
  intros Hcode Hbody Hparse. unfold serialize_attempt.
  apply test_case_pass; [|reflexivity].
  unfold truthy, truthy_Response. rewrite Hcode. cbn [Z.leb Z.ltb Z.compare Pos.compare Pos.compare_cont andb negb].
  unfold bind, json_of_response. rewrite Hbody. cbn [ret].
  rewrite construct_parse, Hparse. reflexivity.
Qed.

Lemma serialize_attempt_invalid (r : Response) (cls : ResponseClass)
    (fields : list (string * JSON)) (err : string) (s : State) :
  status_code r = 200 ->
  body r = Some (JObj fields) ->
  parse env cls fields = inl err ->
  serialize_attempt env (Got r) cls s
  = (Return PyFalse, record_failure (describe (mkExc ValidationError err)) s).
Proof.
  intros Hcode Hbody Hparse. unfold serialize_attempt.
  apply test_case_caught; [|reflexivity].
  unfold truthy, truthy_Response. rewrite Hcode. cbn [Z.leb Z.ltb Z.compare Pos.compare Pos.compare_cont andb negb].
  unfold bind, json_of_response. rewrite Hbody. cbn [ret].
  rewrite construct_parse, Hparse. reflexivity.
Qed.

Lemma serialize_attempt_False (cls : ResponseClass) (s : State) :
  serialize_attempt env PyFalse cls s
  = (Return PyFalse,
     record_failure (describe (mkExc ResponseError "Request failed")) s).
Proof.
  unfold serialize_attempt. apply test_case_caught; reflexivity.
Qed.

End Steps.

Section Discovery.

Variable env : Env.

Lemma test_info_endpoints_ok (request : string) (r : Response)
    (cls : ResponseClass) (fields : list (string * JSON)) (m : Model)
    (s : State) :
  let url := base_url (client s) +:+ "/" +:+ request in
  requests_get env (length (requested s)) url = inr r ->
  status_code r = 200 ->
  body r = Some (JObj fields) ->
  RESPONSE_CLASSES request = Some cls ->
  parse env cls fields = inr m ->
  test_info_endpoints env request s
  = (Return (IModel m),
     record_success ("serialized correctly as " +:+ repr_class env cls)
       (record_success "request successful." (after_get url r s))).
Proof.
  intros url Hr Hcode Hbody Hcls Hparse. unfold test_info_endpoints, bind.
  rewrite (get_endpoint_ok env request r s Hr Hcode). fold url.
  unfold truthy at 1, truthy_Response. rewrite Hcode.
  cbn [Z.leb Z.ltb Z.compare Pos.compare Pos.compare_cont andb negb].
  unfold response_class. rewrite Hcls. cbn [ret].
  rewrite (serialize_attempt_ok env r cls fields m _ Hcode Hbody Hparse).
  reflexivity.
Qed.

Lemma test_info_endpoints_bad (request : string) (r : Response) (s : State) :
  let url := base_url (client s) +:+ "/" +:+ request in
  requests_get env (length (requested s)) url = inr r ->
  status_code r <> 429 ->
  status_code r <> 200 ->
  test_info_endpoints env request s
  = (Return IFalse,
     record_failure (describe (bad_status request r)) (after_get url r s)).
Proof.
  intros url Hr H429 H200. unfold test_info_endpoints, bind.
  rewrite (get_endpoint_bad env request r s Hr H429 H200). reflexivity.
Qed.

Lemma manual_extract_truthy (j v : JSON) :
  manual_extract j = inr v -> truthy j = true.
Proof.
  unfold manual_extract, and_then. intros Hex.
  destruct j as [| | | |items|fields]; try discriminate.
  destruct fields as [|kv fields]; [discriminate|reflexivity].
Qed.

Lemma available_by_hand (r : Response) (j v : JSON) (s : State) :
  body r = Some j ->
  manual_extract j = inr v ->
  available env (IResponse r) s = (Return v, s).
Proof.
  intros Hbody Hex. unfold available. cbn [entry_types_json manual_fallback].
  unfold bind, json_of_response. rewrite Hbody. cbn [ret].
  rewrite (manual_extract_truthy j v Hex). cbn [negb].
  unfold try_except, lift. rewrite Hex. reflexivity.
Qed.

Lemma get_available_endpoints_found (base_info : InfoResult) (v : JSON)
    (found : PySet) (s : State) :
  available env base_info s = (Return v, s) ->
  py_set_of v = inr found ->
  get_available_endpoints env base_info s
  = if py_in (KStr "info") (test_entry_endpoints (unioned found s))
    then (Return PyFalse, record_failure (describe illegal_info) (unioned found s))
    else if truthy v
         then (Return (Got v), record_success found_msg (unioned found s))
         else (Return (Got v), record_failure found_msg (unioned found s)).
Proof.
  intros Hav Hset. unfold get_available_endpoints.
  change (match entry_types_json base_info with
          | inl _ => manual_fallback env base_info
          | inr v0 => ret v0
          end) with (available env base_info).
  destruct (py_in (KStr "info") (test_entry_endpoints (unioned found s))) eqn:Hin.
  - apply test_case_caught; [|reflexivity].
    unfold bind at 1. rewrite Hav. unfold bind at 1, lift. rewrite Hset.
    cbn [ret]. unfold bind, modify, get_state.
    fold (unioned found s). rewrite Hin. reflexivity.
  - assert (Hbody :
      (available_json_entry_endpoints <- available env base_info ;;
       found0 <- lift (py_set_of available_json_entry_endpoints) ;;
       modify (fun s0 => with_test_entry_endpoints
                 (py_set_union (test_entry_endpoints s0) found0) s0) ;;
       s0 <- get_state ;;
       (if py_in (KStr "info") (test_entry_endpoints s0)
        then raise ResponseError (exc_str illegal_info)
        else ret (available_json_entry_endpoints, found_msg))) s
      = (Return (v, found_msg), unioned found s)).
    { unfold bind at 1. rewrite Hav. unfold bind at 1, lift. rewrite Hset.
      cbn [ret]. unfold bind, modify, get_state.
      fold (unioned found s). rewrite Hin. reflexivity. }
    destruct (truthy v) eqn:Hv.
    + apply test_case_pass; assumption.
    + apply test_case_falsy; assumption.
Qed.

Lemma get_available_endpoints_not_iterable (base_info : InfoResult) (v : JSON)
    (exc : Exc) (s : State) :
  available env base_info s = (Return v, s) ->
  py_set_of v = inl exc ->
  exc_class exc = TypeError ->
  get_available_endpoints env base_info s = (Raise exc, s).
Proof.
  intros Hav Hset Hexc. unfold get_available_endpoints.
  change (match entry_types_json base_info with
          | inl _ => manual_fallback env base_info
          | inr v0 => ret v0
          end) with (available env base_info).
  apply test_case_uncaught; [|rewrite Hexc; reflexivity].
  unfold bind at 1. rewrite Hav. unfold bind at 1, lift. rewrite Hset.
  reflexivity.
Qed.

End Discovery.

(** C9.  The wrapper of [test_case] catches exactly [ResponseError],
    [ValidationError] and [ManualValidationError].  When the wrapped test
    raises one of them, the wrapper returns [False], adds one to the failure
    counter, leaves the success counter alone and prints the failure line
    with the URL of the last request ([None] when none was sent), followed
    by each line of the message [Class: text], each after a tab.
    When the test returns a true result, the wrapper returns it and adds one
    to the success counter only.  When the test raises anything else, the
    exception leaves the wrapper and the state is the one the test left:
    neither counter is touched. *)
Theorem test_case_outcomes {A : Type} `{Truthy A} (test_fn : M (A * string))
    (s s1 : State) (out : Outcome (A * string)) :
  test_fn s = (out, s1) ->
  (forall c, recognized c = true <->
     c = ResponseError \/ c = ValidationError \/ c = ManualValidationError) /\
  match out with
  | Raise exc =>
      if recognized (exc_class exc)
      then exists s2,
             test_case test_fn s = (Return PyFalse, s2) /\
             failure_count s2 = failure_count s1 + 1 /\
             success_count s2 = success_count s1 /\
             stdout s2 = stdout s1 ++
               Failure ("✖: " +:+
                          match last_request (client s1) with
                          | Some url => url
                          | None => "None"
                          end
                          +:+ " - failed with error")
               :: map (fun line => Warning (String "009"%char line))
                    (split_on "010"%char
                       (class_name (exc_class exc) +:+ ": " +:+ exc_str exc))
      else test_case test_fn s = (Raise exc, s1)
  | Return (result, msg) =>
      truthy result = true ->
      exists s2,
        test_case test_fn s = (Return (Got result), s2) /\
        success_count s2 = success_count s1 + 1 /\
        failure_count s2 = failure_count s1
  end.
Proof.
  intros Hrun. split; [exact recognized_iff|].
  destruct out as [[result msg]|exc].
  - intros Hres. exists (record_success msg s1).
    split; [apply test_case_pass; assumption|].
    cbn. split; reflexivity.
  - destruct (recognized (exc_class exc)) eqn:Hexc.
    + exists (record_failure (describe exc) s1).
      split; [apply test_case_caught; assumption|].
      cbn. repeat split; reflexivity.
    + apply test_case_uncaught; assumption.
Qed.

(** ** Discovery of the entry types *)

(** ** Sets of strings *)

Lemma py_eq_KStr (t : string) (k : PyKey) :
  py_eq (KStr t) k = true -> k = KStr t.
Proof.
  destruct k as [|b|n|u]; cbn; try discriminate.
  intros E. apply String.eqb_eq in E. congruence.
Qed.

Lemma py_in_KStr (t : string) (s : PySet) :
  py_in (KStr t) s = true <-> In (KStr t) s.
Proof.
  unfold py_in. rewrite existsb_exists. split.
  - intros (k & Hk & E). apply py_eq_KStr in E. congruence.
  - intros Hin. exists (KStr t). split; [exact Hin|]. cbn. apply String.eqb_refl.
Qed.

Lemma In_py_set_union (t : list PyKey) :
  Forall is_str t ->
  forall (s : PySet) (x : PyKey),
    In x (py_set_union s t) <-> In x s \/ In x t.
Proof.
  unfold py_set_union. induction 1 as [|k t [u ->] Ht IH]; intros s x; cbn [fold_left].
  - cbn. tauto.
  - rewrite IH. unfold py_set_add.
    destruct (py_in (KStr u) s) eqn:E.
    + apply py_in_KStr in E. cbn. split; [tauto|].
      intros [Hs|[<-|Hx]]; tauto.
    + rewrite in_app_iff. cbn. tauto.
Qed.

Lemma Forall_is_str_map (l : list string) : Forall is_str (map KStr l).
Proof. apply List.Forall_forall. intros x Hx. apply in_map_iff in Hx as (t & <- & _). exists t; reflexivity. Qed.

Lemma hashables_strings (l : list string) :
  hashables (map JStr l) = inr (map KStr l).
Proof.
  induction l as [|t l IH]; [reflexivity|].
  cbn. rewrite IH. reflexivity.
Qed.

Lemma py_set_of_strings (l : list string) :
  py_set_of (JArr (map JStr l)) = inr (py_set_union [] (map KStr l)).
Proof. cbn. rewrite hashables_strings. reflexivity. Qed.

Lemma In_union_of_strings (l : list string) (s : PySet) (x : PyKey) :
  In x (py_set_union s (py_set_union [] (map KStr l)))
  <-> In x s \/ In x (map KStr l).
Proof.
  rewrite In_py_set_union.
  - rewrite (In_py_set_union _ (Forall_is_str_map l)). cbn. tauto.
  - apply List.Forall_forall. intros k Hk.
    apply (In_py_set_union _ (Forall_is_str_map l)) in Hk as [[]|Hk].
    apply in_map_iff in Hk as (t & <- & _). exists t; reflexivity.
Qed.

(** C6.  When the base info document yields an empty list of JSON entry
    types, through the validated model or through the manual extraction from
    the raw body, [get_available_endpoints] returns a false result and the
    step is counted as a failure: the failure counter grows by one and the
    success counter does not change. *)
Theorem empty_entry_types_counted_as_failure (env : Env)
    (base_info : InfoResult) (s : State) :
  (exists formats, base_info = IModel (MInfo formats) /\
                   formats !! "json" = Some []) \/
  (exists r j, base_info = IResponse r /\ body r = Some j /\
               manual_extract j = inr (JArr [])) ->
  exists result s',
    get_available_endpoints env base_info s = (Return result, s') /\
    truthy result = false /\
    failure_count s' = failure_count s + 1 /\
    success_count s' = success_count s.
Proof.
  intros Hempty.
  assert (Hav : available env base_info s = (Return (JArr []), s)).
  { destruct Hempty as [(formats & -> & Hjson)|(r & j & -> & Hbody & Hex)].
    - unfold available. cbn [entry_types_json]. rewrite Hjson. reflexivity.
    - exact (available_by_hand env r j _ s Hbody Hex). }
  rewrite (get_available_endpoints_found env base_info (JArr []) [] s Hav eq_refl).
  destruct (py_in (KStr "info") (test_entry_endpoints (unioned [] s))).
  - eexists _, _. split; [reflexivity|]. cbn. repeat split; reflexivity.
  - cbn [truthy truthy_JSON]. eexists _, _. split; [reflexivity|].
    cbn. repeat split; reflexivity.
Qed.

(** C7.  When the base info response is well formed (status 200, a body
    that validates as an [InfoResponse]) and lists the non-empty [types]
    under the JSON format, the working set of entry types right after the
    base info stage of a new validator has exactly these members: the
    baseline type [structures], whether the server lists it or not, and the
    members of [types]. *)
Theorem working_set_after_base_info (env : Env) (c : Client) (verb : Z)
    (r : Response) (fields : list (string * JSON))
    (formats : gmap string (list string)) (types : list string) :
  requests_get env 0 (base_url c +:+ "/" +:+ BASE_INFO_ENDPOINT) = inr r ->
  status_code r = 200 ->
  body r = Some (JObj fields) ->
  parse_info env fields = inr formats ->
  formats !! "json" = Some types ->
  types <> [] ->
  forall x : PyKey,
    In x (test_entry_endpoints (snd (base_info_stage env (new_validator c verb))))
    <-> x = KStr "structures" \/ exists t, In t types /\ x = KStr t.
Proof.
  intros Hr Hcode Hbody Hparse Hjson _ x.
  unfold base_info_stage, bind.
  rewrite (test_info_endpoints_ok env BASE_INFO_ENDPOINT r InfoResponse fields
             (MInfo formats) (new_validator c verb) Hr Hcode Hbody eq_refl);
    [|unfold parse; rewrite Hparse; reflexivity].
  match goal with |- context [get_available_endpoints env _ ?t] => set (s1 := t) end.
  assert (Hav : available env (IModel (MInfo formats)) s1
                = (Return (JArr (map JStr types)), s1)).
  { unfold available. cbn [entry_types_json]. rewrite Hjson. reflexivity. }
  rewrite (get_available_endpoints_found env _ _ _ s1 Hav (py_set_of_strings types)).
  assert (Hset : test_entry_endpoints s1 = [KStr "structures"]).
  { subst s1. fields. reflexivity. }
  assert (Hgoal : In x (test_entry_endpoints
                          (unioned (py_set_union [] (map KStr types)) s1))
                  <-> x = KStr "structures" \/ exists t, In t types /\ x = KStr t).
  { unfold unioned. cbn [test_entry_endpoints with_test_entry_endpoints].
    rewrite In_union_of_strings, Hset, in_map_iff. cbn [In]. split.
    - intros [[<-|[]]|(t & <- & Ht)]; [left; reflexivity|right; exists t; auto].
    - intros [->|(t & Ht & ->)]; [left; left; reflexivity|right; exists t; auto]. }
  destruct (py_in (KStr "info") _); [|destruct (truthy _)];
    unfold ret; cbn [snd]; fields; exact Hgoal.
Qed.

(** C10.  When the base info response validates as an [InfoResponse] whose
    [entry_types_by_format] has no [json] key, [dict.get] returns [None] and
    [set(None)] raises a [TypeError], which the wrapper does not catch:
    [main] is aborted by it, [valid] stays [None], the script exits with
    status 2, no failure was counted and no request but [info] was sent. *)
Theorem missing_json_key_aborts (env : Env) (b : string) (verb : Z)
    (r : Response) (fields : list (string * JSON))
    (formats : gmap string (list string)) :
  requests_get env 0 (b +:+ "/" +:+ BASE_INFO_ENDPOINT) = inr r ->
  status_code r = 200 ->
  body r = Some (JObj fields) ->
  parse_info env fields = inr formats ->
  formats !! "json" = None ->
  exists s',
    main env (new_validator (mkClient b None None) verb)
    = (Raise (mkExc TypeError "'NoneType' object is not iterable"), s') /\
    script env b verb = (2, s') /\
    valid s' = None /\
    failure_count s' = 0 /\
    success_count s' = 2 /\
    requested s' = [b +:+ "/" +:+ BASE_INFO_ENDPOINT].
Proof.
  intros Hr Hcode Hbody Hparse Hjson.
  set (s0 := new_validator (mkClient b None None) verb).
  assert (Hstage : exists s',
    base_info_stage env s0
    = (Raise (mkExc TypeError "'NoneType' object is not iterable"), s') /\
    valid s' = None /\ failure_count s' = 0 /\ success_count s' = 2 /\
    requested s' = [b +:+ "/" +:+ BASE_INFO_ENDPOINT]).
  { unfold base_info_stage, bind.
    rewrite (test_info_endpoints_ok env BASE_INFO_ENDPOINT r InfoResponse fields
               (MInfo formats) s0 Hr Hcode Hbody eq_refl);
      [|unfold parse; rewrite Hparse; reflexivity].
    match goal with |- context [get_available_endpoints env _ ?t] => set (s1 := t) end.
    assert (Hav : available env (IModel (MInfo formats)) s1 = (Return JNull, s1)).
    { unfold available. cbn [entry_types_json]. rewrite Hjson. reflexivity. }
    rewrite (get_available_endpoints_not_iterable env _ _ _ s1 Hav eq_refl eq_refl).
    exists s1. split; [reflexivity|]. subst s1. fields.
    repeat split; reflexivity. }
  destruct Hstage as (s' & Hrun & Hvalid & Hfail & Hsucc & Hreq).
  assert (Hmain : main env s0
    = (Raise (mkExc TypeError "'NoneType' object is not iterable"), s')).
  { unfold main. unfold bind at 1. rewrite Hrun. reflexivity. }
  exists s'. split; [exact Hmain|].
  split; [|tauto].
  unfold script. cbn [init]. fold s0. unfold try_except. rewrite Hmain.
  cbn. rewrite Hvalid. reflexivity.
Qed.

(** ** Listings and the registry of test ids *)

Section Listing.

Variable env : Env.

Lemma get_single_id_first (first : EntryResource) (rest : list EntryResource)
    (s : State) :
  get_single_id_from_multi_endpoint (Got (MMany (first :: rest))) s
  = (Return (Got (res_id first)),
     if truthy (res_id first)
     then record_success (scraped_msg first) (scraped first s)
     else record_failure (scraped_msg first) (scraped first s)).
Proof.
  unfold get_single_id_from_multi_endpoint.
  assert (Hbody :
    (modify (fun s0 => with_test_id_by_type
               (<[res_type first := res_id first]> (test_id_by_type s0)) s0) ;;
     s0 <- get_state ;;
     match test_id_by_type s0 !! res_type first with
     | Some test_id => ret (test_id, scraped_msg first)
     | None => raise KeyError (res_type first)
     end) s
    = (Return (res_id first, scraped_msg first), scraped first s)).
  { unfold bind, modify, get_state. fold (scraped first s).
    unfold scraped at 1. cbn [test_id_by_type with_test_id_by_type].
    rewrite lookup_insert_eq. reflexivity. }
  destruct (truthy (res_id first)) eqn:Hid.
  - apply test_case_pass; assumption.
  - apply test_case_falsy; assumption.
Qed.

Lemma get_single_id_none (s : State) :
  get_single_id_from_multi_endpoint (Got (MMany [])) s
  = (Return PyFalse, record_failure (describe no_entries) s).
Proof.
  unfold get_single_id_from_multi_endpoint.
  apply test_case_caught; reflexivity.
Qed.

Lemma get_single_id_False (s : State) :
  get_single_id_from_multi_endpoint PyFalse s
  = (Return PyFalse, record_failure (describe no_entries) s).
Proof.
  unfold get_single_id_from_multi_endpoint.
  apply test_case_caught; reflexivity.
Qed.

Lemma test_multi_entry_endpoint_listed (endp : string) (r : Response)
    (fields : list (string * JSON)) (data : list EntryResource) (s : State) :
  requests_get env (length (requested s))
    (base_url (client s) +:+ "/" +:+ endp) = inr r ->
  status_code r = 200 ->
  body r = Some (JObj fields) ->
  RESPONSE_CLASSES endp = Some StructureResponseMany ->
  parse_many env fields = inr data ->
  test_multi_entry_endpoint env (KStr endp) s
  = (Return tt,
     match data with
     | [] => record_failure (describe no_entries) (listed env endp r s)
     | first :: _ =>
         if truthy (res_id first)
         then record_success (scraped_msg first) (scraped first (listed env endp r s))
         else record_failure (scraped_msg first) (scraped first (listed env endp r s))
     end).
Proof.
  intros Hr Hcode Hbody Hcls Hparse.
  unfold test_multi_entry_endpoint. unfold bind at 1. cbn [py_str].
  rewrite (get_endpoint_ok env endp r s Hr Hcode).
  unfold bind at 1, response_class. rewrite Hcls. cbn [ret].
  unfold bind at 1.
  rewrite (serialize_attempt_ok env r StructureResponseMany fields (MMany data)
             _ Hcode Hbody);
    [|unfold parse; rewrite Hparse; reflexivity].
  fold (listed env endp r s). unfold bind.
  destruct data as [|first rest].
  - rewrite get_single_id_none. reflexivity.
  - rewrite get_single_id_first. reflexivity.
Qed.

End Listing.

(** C8, amended.  When the listing of an entry type is fetched and
    validated, and has at least one resource, the registry afterwards is the
    registry before with the [type] field of the first resource mapped to
    the [id] of the first resource; when the listing validates with no
    resource, the registry is unchanged and the failure counter grows by
    one. *)
Theorem registry_after_listing (env : Env) (endp : string) (r : Response)
    (fields : list (string * JSON)) (data : list EntryResource) (s : State) :
  requests_get env (length (requested s))
    (base_url (client s) +:+ "/" +:+ endp) = inr r ->
  status_code r = 200 ->
  body r = Some (JObj fields) ->
  RESPONSE_CLASSES endp = Some StructureResponseMany ->
  parse_many env fields = inr data ->
  exists s',
    test_multi_entry_endpoint env (KStr endp) s = (Return tt, s') /\
    match data with
    | first :: _ =>
        test_id_by_type s'
        = <[res_type first := res_id first]> (test_id_by_type s)
    | [] =>
        test_id_by_type s' = test_id_by_type s /\
        failure_count s' = failure_count s + 1
    end.
Proof.
  intros Hr Hcode Hbody Hcls Hparse.
  eexists. split.
  - exact (test_multi_entry_endpoint_listed env endp r fields data s
             Hr Hcode Hbody Hcls Hparse).
  - destruct data as [|first rest].
    + fields. unfold listed. fields. split; reflexivity.
    + destruct (truthy (res_id first)); fields; unfold listed; fields; reflexivity.
Qed.

(** ** Whole runs *)

(** C2, amended.  Against a server that answers [info] with the document
    that lists [structures] as its only JSON entry type, that answers
    [info/structures] and [structures] with bodies that validate, and whose
    listing has the one resource of type [structures] and id [abc], the
    stages of [main] up to the end of the listings count no failure and
    eight successes (request, validation and discovery for [info]; request
    and validation for [info/structures]; request, validation and scraped id
    for [structures]), and register [abc] for [structures]. *)
Theorem one_structure_passes_eight_steps (env : Env) (b : string) (verb : Z)
    (r1 r2 r3 : Response) (f2 f3 : list (string * JSON))
    (formats : gmap string (list string)) :
  (forall k, requests_get env k (b +:+ "/info") = inr r1) ->
  status_code r1 = 200 ->
  body r1 = Some (JObj Scenario.structures_only) ->
  parse_info env Scenario.structures_only = inr formats ->
  formats !! "json" = Some ["structures"] ->
  (forall k, requests_get env k (b +:+ "/info/structures") = inr r2) ->
  status_code r2 = 200 ->
  body r2 = Some (JObj f2) ->
  parse_entry_info env f2 = inr tt ->
  (forall k, requests_get env k (b +:+ "/structures") = inr r3) ->
  status_code r3 = 200 ->
  body r3 = Some (JObj f3) ->
  parse_many env f3 = inr [mkEntry "structures" "abc"] ->
  exists s',
    discovery_and_listing env (new_validator (mkClient b None None) verb)
    = (Return tt, s') /\
    failure_count s' = 0 /\
    success_count s' = 8 /\
    test_id_by_type s' = {["structures" := "abc"]} /\
    requested s' = [b +:+ "/info"; b +:+ "/info/structures"; b +:+ "/structures"].
Proof.
  intros Hr1 Hc1 Hb1 Hp1 Hjson Hr2 Hc2 Hb2 Hp2 Hr3 Hc3 Hb3 Hp3.
  set (s0 := new_validator (mkClient b None None) verb).
  (* the base info document *)
  pose proof (test_info_endpoints_ok env BASE_INFO_ENDPOINT r1 InfoResponse
                Scenario.structures_only (MInfo formats) s0 (Hr1 _) Hc1 Hb1 eq_refl)
    as Hinfo.
  unfold parse in Hinfo. rewrite Hp1 in Hinfo. specialize (Hinfo eq_refl).
  match type of Hinfo with _ = (_, ?t) => set (s1 := t) in * end.
  assert (Hav : available env (IModel (MInfo formats)) s1
                = (Return (JArr (map JStr ["structures"])), s1)).
  { unfold available. cbn [entry_types_json]. rewrite Hjson. reflexivity. }
  pose proof (get_available_endpoints_found env _ _ _ s1 Hav
                (py_set_of_strings ["structures"])) as Hfound.
  change (test_entry_endpoints
            (unioned (py_set_union [] (map KStr ["structures"])) s1))
    with [KStr "structures"] in Hfound.
  cbn [py_in existsb py_eq String.eqb Ascii.eqb Bool.eqb orb
       map truthy truthy_JSON] in Hfound.
  match type of Hfound with _ = (_, ?t) => set (s2 := t) in * end.
  assert (Hstage1 : base_info_stage env s0 = (Return tt, s2)).
  { unfold base_info_stage.
    rewrite (bind_return _ _ _ _ _ Hinfo), (bind_return _ _ _ _ _ Hfound).
    reflexivity. }
  (* the info document of each entry type *)
  pose proof (test_info_endpoints_ok env (BASE_INFO_ENDPOINT +:+ "/" +:+ "structures")
                r2 EntryInfoResponse f2 MEntryInfo s2 (Hr2 _) Hc2 Hb2 eq_refl)
    as Hentry.
  unfold parse in Hentry. rewrite Hp2 in Hentry. specialize (Hentry eq_refl).
  match type of Hentry with _ = (_, ?t) => set (s3 := t) in * end.
  assert (Hstage2 : entry_info_stage env s2 = (Return tt, s3)).
  { unfold entry_info_stage.
    rewrite (bind_return get_state _ s2 s2 s2 eq_refl).
    change (test_entry_endpoints s2) with [KStr "structures"].
    cbn [for_each py_str].
    rewrite (bind_return _ _ _ _ _
               (bind_return _ (fun _ => ret tt) _ _ _ Hentry)).
    reflexivity. }
  (* the listing of each entry type *)
  pose proof (test_multi_entry_endpoint_listed env "structures" r3 f3
                [mkEntry "structures" "abc"] s3 (Hr3 _) Hc3 Hb3 eq_refl Hp3)
    as Hlist.
  cbn [res_id truthy truthy_string] in Hlist.
  match type of Hlist with _ = (_, ?t) => set (s4 := t) in * end.
  assert (Hstage3 : multi_entry_stage env s3 = (Return tt, s4)).
  { unfold multi_entry_stage.
    rewrite (bind_return get_state _ s3 s3 s3 eq_refl).
    change (test_entry_endpoints s3) with [KStr "structures"].
    cbn [for_each].
    rewrite (bind_return _ _ _ _ _ Hlist). reflexivity. }
  exists s4. split.
  - unfold discovery_and_listing.
    rewrite (bind_return _ _ _ _ _ Hstage1), (bind_return _ _ _ _ _ Hstage2).
    exact Hstage3.
  - repeat split; reflexivity.
Qed.

Import Scenario.

Lemma test_single_entry_endpoint_registered (env : Env) (_type : PyKey)
    (s : State) :
  registered _type (test_id_by_type s) = true ->
  test_single_entry_endpoint env _type s = (Raise unbound, s).
Proof.
  intros Hreg. unfold test_single_entry_endpoint.
  rewrite (bind_return get_state _ s s s eq_refl). rewrite Hreg.
  reflexivity.
Qed.

Lemma test_single_entry_endpoint_skipped (env : Env) (_type : PyKey)
    (s : State) :
  registered _type (test_id_by_type s) = false ->
  test_single_entry_endpoint env _type s = (Return tt, s).
Proof.
  intros Hreg. unfold test_single_entry_endpoint.
  rewrite (bind_return get_state _ s s s eq_refl). rewrite Hreg.
  reflexivity.
Qed.

(** C1.  On the server with one structure, the registry holds [abc] for
    [structures] when the single-entry stage starts; the single-entry test
    of [structures] then raises a [NameError] for the unbound name
    [test_id] without changing the state, so that the request for
    [structures/abc] is never sent, and the script exits with status 2. *)
Theorem single_entry_test_raises_NameError :
  let env := serving one_structure in
  let s := snd (discovery_and_listing env fresh) in
  test_id_by_type s !! "structures" = Some "abc" /\
  test_single_entry_endpoint env (KStr "structures") s = (Raise unbound, s) /\
  requested (snd (script env url 0))
  = [url +:+ "/info"; url +:+ "/info/structures"; url +:+ "/structures"] /\
  fst (script env url 0) = 2.
Proof.
  intros env s.
  assert (Hreg : test_id_by_type s !! "structures" = Some "abc") by reflexivity.
  split; [exact Hreg|]. split.
  - apply test_single_entry_endpoint_registered.
    unfold registered. rewrite Hreg. reflexivity.
  - split; reflexivity.
Qed.

(** C2, as stated, does not hold: the run against the server with one
    structure does not end with no failure, four successes and exit status
    0. *)
Lemma one_structure_run_is_not_four_passes :
  let run := script (serving one_structure) url 0 in
  ~ (failure_count (snd run) = 0 /\ success_count (snd run) = 4 /\ fst run = 0).
Proof.
  intros run (_ & Hcount & _). vm_compute in Hcount. discriminate Hcount.
Qed.

(** C4.  On a server whose base info document lists [info] among the JSON
    entry types, the base info stage counts one failure, yet [info] is a
    member of the working set after it, and the next stage sends a request
    for [info/info]. *)
Theorem listed_info_enters_working_set :
  let env := serving lists_info in
  let s := snd (base_info_stage env fresh) in
  failure_count s = 1 /\
  py_in (KStr "info") (test_entry_endpoints s) = true /\
  requested (snd (entry_info_stage env s))
  = [url +:+ "/info"; url +:+ "/info/structures"; url +:+ "/info/info"].
Proof.
  intros env s. repeat split; reflexivity.
Qed.

(** C5.  On a server whose [info] endpoint answers with HTTP 500, the
    failed request is counted as one failure, then [main] is aborted by the
    [AttributeError] of [False.json()]: no further request is sent, [valid]
    stays [None] and the script exits with status 2. *)
Theorem broken_info_aborts_run :
  let env := serving info_broken in
  let s' := snd (script env url 0) in
  main env fresh
  = (Raise (mkExc AttributeError "'bool' object has no attribute 'json'"), s') /\
  failure_count s' = 1 /\
  requested s' = [url +:+ "/info"] /\
  valid s' = None /\
  fst (script env url 0) = 2.
Proof.
  intros env s'. repeat split; reflexivity.
Qed.

(** C8, as stated, does not hold: the listing of [structures] is fetched
    and validated with one resource of id [x], three steps pass and none
    fails, yet the registry does not hold [x] for [structures]. *)
Lemma mislabelled_listing_registers_other_type :
  let s := snd (test_multi_entry_endpoint (serving mislabelled)
                  (KStr "structures") fresh) in
  success_count s = 3 /\
  failure_count s = 0 /\
  test_id_by_type s !! "structures" <> Some "x".
Proof.
  intros s. split; [reflexivity|]. split; [reflexivity|].
  vm_compute. discriminate.
Qed.

(** ** The statements above on the servers of [Scenario] *)

(** C3 on a server that is rate limited for its first two requests. *)
Lemma Client_get_retries_twice :
  exists s',
    Client_get (serving (throttled 2)) "info" fresh
    = (Return (mkResponse 200 (Some (JObj structures_only))), s') /\
    slept s' = 2 /\
    requested s' = [url +:+ "/info"; url +:+ "/info"; url +:+ "/info"].
Proof.
  refine (proj1 (Client_get_retries (serving (throttled 2)) fresh "info" 2
                   (mkResponse 200 (Some (JObj structures_only))) _ _ _) _).
  - intros i Hi. destruct i as [|[|i]]; [eexists; split; reflexivity ..|lia].
  - reflexivity.
  - reflexivity.
  - lia.
Defined.

(** C9 on a test that sends a request to [info], which the server answers
    with HTTP 500, and then raises a [ResponseError] with a message of two
    lines: the failure line names the URL of that request. *)
Lemma test_case_outcomes_on_failure :
  exists s2,
    test_case (A := Response)
      (response <- Client_get (serving info_broken) "info" ;;
       raise ResponseError
         ("Request failed" +:+ String "010"%char "again")) fresh
    = (Return PyFalse, s2) /\
    failure_count s2 = 1 /\
    success_count s2 = 0 /\
    stdout s2
    = [Failure "✖: http://localhost:5000/info - failed with error";
       Warning (String "009"%char "ResponseError: Request failed");
       Warning (String "009"%char "again")].
Proof.
  exact (proj2 (test_case_outcomes (A := Response)
                  (response <- Client_get (serving info_broken) "info" ;;
                   raise ResponseError
                     ("Request failed" +:+ String "010"%char "again"))
                  fresh _ _ eq_refl)).
Defined.

(** C6 on a validated model whose JSON format has no entry types. *)
Lemma empty_entry_types_on_model :
  exists result s',
    get_available_endpoints (serving one_structure)
      (IModel (MInfo {["json" := []]})) fresh = (Return result, s') /\
    truthy result = false /\
    failure_count s' = failure_count fresh + 1 /\
    success_count s' = success_count fresh.
Proof.
  apply (empty_entry_types_counted_as_failure (serving one_structure)
           (IModel (MInfo {["json" := []]})) fresh).
  left. exists {["json" := []]}. split; reflexivity.
Defined.

(** C7 on a server that lists [calculations] and nothing else: the
    working set holds [structures], which the server did not list, and
    [calculations], and it does not hold [info]. *)
Lemma working_set_with_calculations :
  let ws :=
    test_entry_endpoints
      (snd (base_info_stage (serving Faults.lists_calculations)
              (new_validator (mkClient url None None) 0))) in
  In (KStr "structures") ws /\
  In (KStr "calculations") ws /\
  ~ In (KStr "info") ws.
Proof.
  pose proof (working_set_after_base_info (serving Faults.lists_calculations)
                (mkClient url None None) 0
                (mkResponse 200
                   (Some (info_body (JObj [("json", JArr [JStr "calculations"])]))))
                (info_fields (JObj [("json", JArr [JStr "calculations"])]))
                {["json" := ["calculations"]]}
                ["calculations"]
                eq_refl eq_refl eq_refl eq_refl eq_refl
                ltac:(discriminate)) as Hws.
  split; [apply Hws; left; reflexivity|].
  split; [apply Hws; right; exists "calculations"; split; [left|]; reflexivity|].
  intros Hin. apply Hws in Hin as [Hin|(t & [<-|[]] & Hin)]; discriminate Hin.
Defined.

(** C10 on a server whose only format is XML. *)
Lemma xml_only_server_aborts :
  exists s',
    main (serving xml_only) (new_validator (mkClient url None None) 0)
    = (Raise (mkExc TypeError "'NoneType' object is not iterable"), s') /\
    script (serving xml_only) url 0 = (2, s') /\
    valid s' = None /\
    failure_count s' = 0 /\
    success_count s' = 2 /\
    requested s' = [url +:+ "/" +:+ BASE_INFO_ENDPOINT].
Proof.
  apply (missing_json_key_aborts (serving xml_only) url 0
           (mkResponse 200
              (Some (info_body (JObj [("xml", JArr [JStr "structures"])]))))
           (info_fields (JObj [("xml", JArr [JStr "structures"])]))
           {["xml" := ["structures"]]}).
  - reflexivity.
  - reflexivity.
  - reflexivity.
  - reflexivity.
  - reflexivity.
Defined.

(** C8, amended, on the server with one structure. *)
Lemma registry_after_listing_one_structure :
  exists s',
    test_multi_entry_endpoint (serving one_structure) (KStr "structures") fresh
    = (Return tt, s') /\
    test_id_by_type s' = <["structures" := "abc"]> (test_id_by_type fresh).
Proof.
  apply (registry_after_listing (serving one_structure) "structures"
           (mkResponse 200 (Some (JObj [("data", JArr [resource "structures" "abc"])])))
           [("data", JArr [resource "structures" "abc"])]
           [mkEntry "structures" "abc"] fresh);
    reflexivity.
Defined.

(** C2, amended, on the server with one structure. *)
Lemma one_structure_server_passes_eight_steps :
  exists s',
    discovery_and_listing (serving one_structure)
      (new_validator (mkClient url None None) 0) = (Return tt, s') /\
    failure_count s' = 0 /\
    success_count s' = 8 /\
    test_id_by_type s' = {["structures" := "abc"]} /\
    requested s' = [url +:+ "/info"; url +:+ "/info/structures"; url +:+ "/structures"].
Proof.
  apply (one_structure_passes_eight_steps (serving one_structure) url 0
           (mkResponse 200 (Some (JObj structures_only)))
           (mkResponse 200 (Some (JObj [("data", JObj [])])))
           (mkResponse 200 (Some (JObj [("data", JArr [resource "structures" "abc"])])))
           [("data", JObj [])]
           [("data", JArr [resource "structures" "abc"])]
           {["json" := ["structures"]]});
    reflexivity.
Defined.

(** * Further properties *)

(** ** Every step of a run makes progress *)

Lemma lines_in_app (p : Line -> bool) (a b : list Line) :
  lines_in p (a ++ b) = lines_in p a + lines_in p b.
Proof.
  unfold lines_in. rewrite List.filter_app, length_app. lia.
Qed.

Lemma Progress_refl (s : State) : Progress s s.
Proof.
  constructor; try reflexivity; try lia.
  - auto.
  - exists []. rewrite app_nil_r. cbn [length].
    split; [reflexivity|]. split; [constructor|lia].
  - exists []. rewrite app_nil_r. unfold lines_in. cbn [List.filter length].
    split; [reflexivity|]. destruct (0 <? verbosity s); split; lia.
Qed.

Lemma Progress_trans (s1 s2 s3 : State) :
  Progress s1 s2 -> Progress s2 s3 -> Progress s1 s3.
Proof.
  intros [S1 F1 V1 B1 U1 E1 (u1 & R1 & A1 & L1) (o1 & O1 & C1 & D1)]
         [S2 F2 V2 B2 U2 E2 (u2 & R2 & A2 & L2) (o2 & O2 & C2 & D2)].
  constructor; try lia; try congruence.
  - auto.
  - exists (u1 ++ u2). rewrite R2, R1, <- app_assoc. split; [reflexivity|].
    split.
    + apply Forall_app. split; [exact A1|]. rewrite U1 in A2. exact A2.
    + rewrite length_app. lia.
  - exists (o1 ++ o2). rewrite O2, O1, <- app_assoc. split; [reflexivity|].
    rewrite !lines_in_app, C1, C2, D1, D2, B1.
    destruct (0 <? verbosity s1); split; lia.
Qed.

(** *** Steadiness of the monad *)

Lemma steady_ret {A} (a : A) : steady (ret a).
Proof. intros s. apply Progress_refl. Qed.

Lemma steady_raise {A} (c : ExcClass) (msg : string) : steady (@raise A c msg).
Proof. intros s. apply Progress_refl. Qed.

Lemma steady_reraise {A} (e : Exc) : steady (@reraise A e).
Proof. intros s. apply Progress_refl. Qed.

Lemma steady_get_state : steady get_state.
Proof. intros s. apply Progress_refl. Qed.

Lemma steady_lift {A} (r : Exc + A) : steady (lift r).
Proof. destruct r; [apply steady_reraise|apply steady_ret]. Qed.

Lemma steady_bind {A B} (m : M A) (k : A -> M B) :
  steady m -> (forall a, steady (k a)) -> steady (bind m k).
Proof.
  intros Hm Hk s. unfold bind. specialize (Hm s).
  destruct (m s) as [[a|e] s1]; cbn [snd] in *.
  - eapply Progress_trans; [exact Hm|apply Hk].
  - exact Hm.
Qed.

Lemma steady_try_except {A} (m : M A) (caught : ExcClass -> bool)
    (handler : Exc -> M A) :
  steady m -> (forall e, steady (handler e)) -> steady (try_except m caught handler).
Proof.
  intros Hm Hh s. unfold try_except. specialize (Hm s).
  destruct (m s) as [[a|e] s1]; cbn [snd] in *; [exact Hm|].
  destruct (caught (exc_class e)); [|exact Hm].
  eapply Progress_trans; [exact Hm|apply Hh].
Qed.

Lemma steady_for_each {B} (l : list B) (body : B -> M unit) :
  (forall x, steady (body x)) -> steady (for_each l body).
Proof.
  intros Hbody. induction l as [|x l IH]; cbn [for_each].
  - apply steady_ret.
  - apply steady_bind; [apply Hbody|intros _; exact IH].
Qed.

(** *** Steadiness of the single updates *)

(** A state that differs from [s] in fields that [Progress] does not read,
    or by an explicit extension of the logs. *)
Lemma Progress_step (s s' : State) (urls : list string) (out : list Line) :
  success_count s <= success_count s' ->
  failure_count s <= failure_count s' ->
  valid s' = valid s ->
  verbosity s' = verbosity s ->
  base_url (client s') = base_url (client s) ->
  (forall k, py_in k (test_entry_endpoints s) = true ->
             py_in k (test_entry_endpoints s') = true) ->
  requested s' = requested s ++ urls ->
  Forall (under (base_url (client s))) urls ->
  slept s <= slept s' <= slept s + Z.of_nat (length urls) ->
  stdout s' = stdout s ++ out ->
  lines_in is_failure_line out = failure_count s' - failure_count s ->
  lines_in is_success_line out
  = (if 0 <? verbosity s then success_count s' - success_count s else 0) ->
  Progress s s'.
Proof.
  intros. constructor; try assumption.
  - exists urls. auto.
  - exists out. auto.
Qed.

Lemma Progress_quiet (s s' : State) :
  success_count s' = success_count s ->
  failure_count s' = failure_count s ->
  valid s' = valid s ->
  verbosity s' = verbosity s ->
  base_url (client s') = base_url (client s) ->
  test_entry_endpoints s' = test_entry_endpoints s ->
  requested s' = requested s ->
  slept s' = slept s ->
  stdout s' = stdout s ->
  Progress s s'.
Proof.
  intros Hs Hf Hv Hb Hu He Hr Hsl Ho.
  apply (Progress_step s s' [] []);
    [ lia | lia | exact Hv | exact Hb | exact Hu
    | intros k Hk; rewrite He; exact Hk
    | rewrite app_nil_r; exact Hr
    | apply List.Forall_nil
    | cbn [length]; lia
    | rewrite app_nil_r; exact Ho
    | unfold lines_in; cbn; lia
    | unfold lines_in; cbn; destruct (0 <? verbosity s); lia ].
Qed.

Lemma lines_in_warnings (p : Line -> bool) (l : list string) (f : string -> string) :
  (forall t, p (Warning t) = false) ->
  lines_in p (map (fun line => Warning (f line)) l) = 0.
Proof.
  intros Hp. unfold lines_in. induction l as [|t l IH]; [reflexivity|].
  cbn. rewrite Hp. exact IH.
Qed.

Lemma lines_in_failure_lines (request : option string) (msg : string) :
  lines_in is_failure_line (failure_lines request msg) = 1 /\
  lines_in is_success_line (failure_lines request msg) = 0.
Proof.
  unfold failure_lines.
  change (Failure ?a :: ?l) with ([Failure a] ++ l).
  rewrite !lines_in_app, !lines_in_warnings by reflexivity.
  split; reflexivity.
Qed.

Lemma Progress_record_success (msg : string) (s : State) :
  Progress s (record_success msg s).
Proof.
  apply (Progress_step s _ []
           (if 0 <? verbosity s
            then [Success ("✔: " +:+ str_of_request (last_request (client s))
                             +:+ " - " +:+ msg)]
            else []));
    fields;
    [ lia | lia | reflexivity | reflexivity | reflexivity | auto
    | rewrite app_nil_r; reflexivity
    | apply List.Forall_nil
    | cbn [length]; lia
    | reflexivity
    | unfold lines_in; destruct (0 <? verbosity s); cbn; lia
    | unfold lines_in; destruct (0 <? verbosity s); cbn; lia ].
Qed.

Lemma Progress_record_failure (msg : string) (s : State) :
  Progress s (record_failure msg s).
Proof.
  destruct (lines_in_failure_lines (last_request (client s)) msg) as [Hf Hs].
  apply (Progress_step s _ [] (failure_lines (last_request (client s)) msg));
    fields;
    [ lia | lia | reflexivity | reflexivity | reflexivity | auto
    | rewrite app_nil_r; reflexivity
    | apply List.Forall_nil
    | cbn [length]; lia
    | reflexivity
    | rewrite Hf; lia
    | rewrite Hs; destruct (0 <? verbosity s); lia ].
Qed.

(** One request to [url] was logged, with at most one second slept and the
    lines [out], none of which reports a success or a failure. *)
Lemma Progress_request (s s' : State) (url : string) (out : list Line) :
  under (base_url (client s)) url ->
  success_count s' = success_count s ->
  failure_count s' = failure_count s ->
  valid s' = valid s ->
  verbosity s' = verbosity s ->
  base_url (client s') = base_url (client s) ->
  test_entry_endpoints s' = test_entry_endpoints s ->
  requested s' = requested s ++ [url] ->
  slept s <= slept s' <= slept s + 1 ->
  stdout s' = stdout s ++ out ->
  lines_in is_failure_line out = 0 ->
  lines_in is_success_line out = 0 ->
  Progress s s'.
Proof.
  intros Hurl Hs Hf Hv Hb Hu He Hr Hsl Ho Hfl Hsl'.
  apply (Progress_step s s' [url] out);
    [ lia | lia | exact Hv | exact Hb | exact Hu
    | intros k Hk; rewrite He; exact Hk
    | exact Hr
    | apply List.Forall_cons; [exact Hurl|apply List.Forall_nil]
    | cbn [length]; lia
    | exact Ho
    | lia
    | destruct (0 <? verbosity s); lia ].
Qed.

(** The decorator keeps a steady test steady. *)
Lemma steady_test_case {A} `{Truthy A} (test_fn : M (A * string)) :
  steady test_fn -> steady (test_case test_fn).
Proof.
  intros Hfn s. specialize (Hfn s).
  destruct (test_fn s) as [[[a msg]|exc] s1] eqn:Hrun; cbn [snd] in Hfn.
  - destruct (truthy a) eqn:Ha.
    + rewrite (test_case_pass test_fn s s1 a msg Hrun Ha). cbn [snd].
      eapply Progress_trans; [exact Hfn|apply Progress_record_success].
    + rewrite (test_case_falsy test_fn s s1 a msg Hrun Ha). cbn [snd].
      eapply Progress_trans; [exact Hfn|apply Progress_record_failure].
  - destruct (recognized (exc_class exc)) eqn:Hexc.
    + rewrite (test_case_caught test_fn s s1 exc Hrun Hexc). cbn [snd].
      eapply Progress_trans; [exact Hfn|apply Progress_record_failure].
    + rewrite (test_case_uncaught test_fn s s1 exc Hrun Hexc). exact Hfn.
Qed.

Section SteadyClient.

Variable env : Env.

Lemma get_attempts_progress (url : string) (n : nat) :
  forall s : State,
    under (base_url (client s)) url ->
    Progress s (snd (get_attempts env n url s)).
Proof.
  induction n as [|n IH]; intros s Hurl.
  - apply Progress_refl.
  - cbn [get_attempts]. unfold bind at 1. unfold http_get at 1.
    destruct (requests_get env (length (requested s)) url) as [e|r].
    + cbn [snd]. apply (Progress_request s _ url []); fields;
        try reflexivity; try lia; try exact Hurl.
      rewrite app_nil_r. reflexivity.
    + unfold bind at 1. cbn [modify].
      destruct (negb (status_code r =? 429)).
      * cbn [ret snd]. apply (Progress_request s _ url []); fields;
          try reflexivity; try lia; try exact Hurl.
        rewrite app_nil_r. reflexivity.
      * unfold bind at 1. cbn [print modify]. unfold bind at 1. cbn [sleep modify].
        match goal with |- context [get_attempts env n url ?t] => set (s1 := t) end.
        apply (Progress_trans s s1).
        -- subst s1.
           apply (Progress_request s _ url
                    [Plain "Hit rate limit, sleeping for 1 s..."]); fields;
             try reflexivity; try lia; exact Hurl.
        -- apply IH. subst s1. fields. exact Hurl.
Qed.

Lemma steady_Client_get (request : string) : steady (Client_get env request).
Proof.
  intros s. unfold Client_get.
  rewrite (bind_return get_state _ s s s eq_refl).
  unfold bind, modify.
  match goal with |- context [get_attempts env _ ?u ?t] => set (s1 := t); set (url := u) end.
  apply (Progress_trans s s1).
  - subst s1. apply Progress_quiet; reflexivity.
  - apply get_attempts_progress. subst s1 url. fields.
    exists request. reflexivity.
Qed.

End SteadyClient.

(** *** Steadiness of the pipeline *)

Lemma py_in_py_set_add (k x : PyKey) (s : PySet) :
  py_in k s = true -> py_in k (py_set_add s x) = true.
Proof.
  intros Hk. unfold py_set_add. destruct (py_in x s); [exact Hk|].
  unfold py_in in *. rewrite existsb_app, Hk. reflexivity.
Qed.

Lemma py_in_py_set_union (k : PyKey) (t : list PyKey) :
  forall s : PySet, py_in k s = true -> py_in k (py_set_union s t) = true.
Proof.
  unfold py_set_union. induction t as [|x t IH]; intros s Hk; [exact Hk|].
  cbn [fold_left]. apply IH, py_in_py_set_add, Hk.
Qed.

Lemma steady_union (found : PySet) :
  steady (modify (fun s =>
    with_test_entry_endpoints (py_set_union (test_entry_endpoints s) found) s)).
Proof.
  intros s. cbn [modify snd].
  apply (Progress_step s _ [] []); fields;
    [ lia | lia | reflexivity | reflexivity | reflexivity
    | intros k Hk; apply py_in_py_set_union, Hk
    | rewrite app_nil_r; reflexivity
    | apply List.Forall_nil
    | cbn [length]; lia
    | rewrite app_nil_r; reflexivity
    | unfold lines_in; cbn; lia
    | unfold lines_in; cbn; destruct (0 <? verbosity s); lia ].
Qed.

Lemma steady_register (t i : string) :
  steady (modify (fun s =>
    with_test_id_by_type (<[t := i]> (test_id_by_type s)) s)).
Proof. intros s. apply Progress_quiet; reflexivity. Qed.

(** One step of a proof of steadiness: the combinator at the head, or a case
    analysis on what the code branches on. *)
Ltac steady_step :=
  match goal with
  | |- steady (ret _) => apply steady_ret
  | |- steady (raise _ _) => apply steady_raise
  | |- steady (reraise _) => apply steady_reraise
  | |- steady get_state => apply steady_get_state
  | |- steady (lift _) => apply steady_lift
  | |- steady (test_case _) => apply steady_test_case
  | |- steady (Client_get _ _) => apply steady_Client_get
  | |- steady (bind _ _) => apply steady_bind; [|intros ?]
  | |- steady (try_except _ _ _) => apply steady_try_except; [|intros ?]
  | |- steady (for_each _ _) => apply steady_for_each; intros ?
  | |- steady (modify (fun s => with_test_entry_endpoints _ s)) =>
      apply steady_union
  | |- steady (modify (fun s => with_test_id_by_type _ s)) =>
      apply steady_register
  | |- steady (if ?b then _ else _) => destruct b
  | |- steady (match ?x with _ => _ end) => destruct x
  end.

Section SteadyPipeline.

Variable env : Env.

Lemma steady_get_endpoint (request_str : string) :
  steady (get_endpoint env request_str).
Proof. unfold get_endpoint. repeat steady_step. Qed.

Lemma steady_serialize_attempt (response : OrFalse Response)
    (cls : ResponseClass) :
  steady (serialize_attempt env response cls).
Proof.
  unfold serialize_attempt, json_of_response, construct, validated.
  repeat steady_step.
Qed.

Lemma steady_response_class (key : PyKey) : steady (response_class key).
Proof. unfold response_class. repeat steady_step. Qed.

Lemma steady_test_info_endpoints (request_str : string) :
  steady (test_info_endpoints env request_str).
Proof.
  unfold test_info_endpoints.
  apply steady_bind; [apply steady_get_endpoint|intros response].
  destruct response as [r|]; [|apply steady_ret].
  destruct (truthy r); [|apply steady_ret].
  apply steady_bind; [apply steady_response_class|intros cls].
  apply steady_bind; [apply steady_serialize_attempt|intros serialized].
  destruct serialized; apply steady_ret.
Qed.

Lemma steady_manual_fallback (base_info : InfoResult) :
  steady (manual_fallback env base_info).
Proof.
  unfold manual_fallback, json_of_response. repeat steady_step.
Qed.

Lemma steady_get_available_endpoints (base_info : InfoResult) :
  steady (get_available_endpoints env base_info).
Proof.
  unfold get_available_endpoints. apply steady_test_case.
  apply steady_bind.
  - destruct (entry_types_json base_info);
      [apply steady_manual_fallback|apply steady_ret].
  - intros v. repeat steady_step.
Qed.

Lemma steady_get_single_id (serialized : OrFalse Model) :
  steady (get_single_id_from_multi_endpoint serialized).
Proof.
  unfold get_single_id_from_multi_endpoint. repeat steady_step.
Qed.

Lemma steady_test_multi_entry_endpoint (request_str : PyKey) :
  steady (test_multi_entry_endpoint env request_str).
Proof.
  unfold test_multi_entry_endpoint.
  apply steady_bind; [apply steady_get_endpoint|intros response].
  apply steady_bind; [apply steady_response_class|intros cls].
  apply steady_bind; [apply steady_serialize_attempt|intros serialized].
  apply steady_bind; [apply steady_get_single_id|intros _; apply steady_ret].
Qed.

Lemma steady_test_single_entry_endpoint (_type : PyKey) :
  steady (test_single_entry_endpoint env _type).
Proof.
  unfold test_single_entry_endpoint, unbound_test_id.
  apply steady_bind; [apply steady_get_state|intros s].
  destruct (registered _type (test_id_by_type s)); [|apply steady_ret].
  apply steady_bind; [apply steady_raise|intros test_id].
  apply steady_bind; [apply steady_get_endpoint|intros response].
  destruct (truthy response); [|apply steady_ret].
  apply steady_bind; [unfold add_slash; repeat steady_step|intros key].
  apply steady_bind; [apply steady_response_class|intros cls].
  apply steady_bind; [apply steady_serialize_attempt|intros _; apply steady_ret].
Qed.

Lemma steady_base_info_stage : steady (base_info_stage env).
Proof.
  unfold base_info_stage.
  apply steady_bind; [apply steady_test_info_endpoints|intros base_info].
  apply steady_bind; [apply steady_get_available_endpoints|intros _; apply steady_ret].
Qed.

Lemma steady_entry_info_stage : steady (entry_info_stage env).
Proof.
  unfold entry_info_stage.
  apply steady_bind; [apply steady_get_state|intros s].
  apply steady_for_each. intros endp.
  apply steady_bind; [apply steady_test_info_endpoints|intros _; apply steady_ret].
Qed.

Lemma steady_multi_entry_stage : steady (multi_entry_stage env).
Proof.
  unfold multi_entry_stage.
  apply steady_bind; [apply steady_get_state|intros s].
  apply steady_for_each. intros endp. apply steady_test_multi_entry_endpoint.
Qed.

Lemma steady_single_entry_stage : steady (single_entry_stage env).
Proof.
  unfold single_entry_stage.
  apply steady_bind; [apply steady_get_state|intros s].
  apply steady_for_each. intros endp. apply steady_test_single_entry_endpoint.
Qed.

End SteadyPipeline.

(** ** Invariants of a whole run *)

Lemma steady_stages (env : Env) : steady (stages env).
Proof.
  unfold stages.
  apply steady_bind; [apply steady_base_info_stage|intros _].
  apply steady_bind; [apply steady_entry_info_stage|intros _].
  apply steady_bind; [apply steady_multi_entry_stage|intros _].
  apply steady_single_entry_stage.
Qed.

Lemma main_stages (env : Env) (s : State) :
  main env s
  = match stages env s with
    | (Return _, s1) => (Return tt, concluded s1)
    | (Raise e, s1) => (Raise e, s1)
    end.
Proof.
  unfold main, stages, bind.
  destruct (base_info_stage env s) as [[[]|e1] s1]; [|reflexivity].
  destruct (entry_info_stage env s1) as [[[]|e2] s2]; [|reflexivity].
  destruct (multi_entry_stage env s2) as [[[]|e3] s3]; [|reflexivity].
  destruct (single_entry_stage env s3) as [[[]|e4] s4]; reflexivity.
Qed.

(** Setting [valid] is the one step of [main] that is not steady; it leaves
    everything else as it is. *)
Lemma main_progress (env : Env) (s : State) :
  exists s1,
    Progress s s1 /\
    (main env s = (Return tt, concluded s1) \/
     exists e, main env s = (Raise e, s1)).
Proof.
  pose proof (steady_stages env s) as Hprog. rewrite main_stages.
  destruct (stages env s) as [[[]|e] s1]; cbn [snd] in Hprog; exists s1;
    (split; [exact Hprog|]); [left|right; exists e]; reflexivity.
Qed.

(** X18.  For every server and every starting state, however [main] ends, the
    success counter and the failure counter at the end are at least what
    they were at the start. *)
Theorem main_counters_never_decrease (env : Env) (s : State) :
  success_count s <= success_count (snd (main env s)) /\
  failure_count s <= failure_count (snd (main env s)).
Proof.
  destruct (main_progress env s) as (s1 & [S F _ _ _ _ _ _] & [Hm|(e & Hm)]);
    rewrite Hm; cbn [snd]; unfold concluded; fields; split; assumption.
Qed.

(** X19.  For every server and every starting state, however [main] ends, every
    member of the working set of entry types at the start is still a member
    at the end. *)
Theorem main_keeps_entry_endpoints (env : Env) (s : State) :
  forallb (fun k => py_in k (test_entry_endpoints (snd (main env s))))
    (test_entry_endpoints s) = true.
Proof.
  apply forallb_forall. intros k Hk.
  assert (Hin : py_in k (test_entry_endpoints s) = true).
  { unfold py_in. apply existsb_exists. exists k. split; [exact Hk|].
    destruct k as [|[]|n|t]; cbn; try reflexivity.
    - apply Z.eqb_refl.
    - apply String.eqb_refl. }
  destruct (main_progress env s) as (s1 & [_ _ _ _ _ E _ _] & [Hm|(e & Hm)]);
    rewrite Hm; cbn [snd]; unfold concluded; fields; apply E, Hin.
Qed.

(** X20.  For every server and every starting state, however [main] ends, the
    requests it sent all went to URLs of the form [base_url/path], and it
    slept at most one second per request sent. *)
Theorem main_requests_under_base_url (env : Env) (s : State) :
  exists urls,
    requested (snd (main env s)) = requested s ++ urls /\
    Forall (under (base_url (client s))) urls /\
    slept s <= slept (snd (main env s)) <= slept s + Z.of_nat (length urls).
Proof.
  destruct (main_progress env s)
    as (s1 & [_ _ _ _ _ _ (urls & R & U & L) _] & [Hm|(e & Hm)]);
    rewrite Hm; cbn [snd]; unfold concluded; fields; exists urls; auto.
Qed.

(** X21.  For every server and every starting state, however [main] ends, the
    output printed during the run holds exactly one failure line per
    failure counted, and one success line per success counted when the
    verbosity is positive, none otherwise. *)
Theorem main_reports_every_failure (env : Env) (s : State) :
  exists out,
    stdout (snd (main env s)) = stdout s ++ out /\
    lines_in is_failure_line out
    = failure_count (snd (main env s)) - failure_count s /\
    lines_in is_success_line out
    = if 0 <? verbosity s
      then success_count (snd (main env s)) - success_count s
      else 0.
Proof.
  destruct (main_progress env s)
    as (s1 & [_ _ _ _ _ _ _ (out & O & F & S)] & [Hm|(e & Hm)]);
    rewrite Hm; cbn [snd]; unfold concluded; fields; exists out; auto.
Qed.

(** X22.  [valid] is written once, at the end: when [main] is aborted by an
    exception, [valid] is what it was before; when [main] returns, [valid]
    says whether the failure counter is zero. *)
Theorem main_sets_valid_at_the_end (env : Env) (s : State) :
  match main env s with
  | (Return _, s') => valid s' = Some (failure_count s' =? 0)
  | (Raise _, s') => valid s' = valid s
  end.
Proof.
  destruct (main_progress env s) as (s1 & [_ _ V _ _ _ _ _] & [Hm|(e & Hm)]);
    rewrite Hm.
  - unfold concluded. fields. unfold truthy, truthy_Z.
    rewrite negb_involutive. reflexivity.
  - exact V.
Qed.

(** X23.  The exit status of the script tells how [main] ended on the new
    validator: 2 when it was aborted by an exception, 0 when it returned
    with no failure counted and 1 when it returned with failures; the final
    state is the one [main] left. *)
Theorem script_exit_code (env : Env) (b : string) (verb : Z) :
  match main env (new_validator (mkClient b None None) verb) with
  | (Return _, s') =>
      script env b verb = (if failure_count s' =? 0 then 0 else 1, s') /\
      0 <= failure_count s'
  | (Raise _, s') => script env b verb = (2, s')
  end.
Proof.
  set (s0 := new_validator (mkClient b None None) verb).
  pose proof (main_sets_valid_at_the_end env s0) as Hvalid.
  pose proof (main_counters_never_decrease env s0) as [_ Hfail].
  unfold script. cbn [init]. fold s0. unfold try_except.
  destruct (main env s0) as [[[]|e] s']; cbn [snd fst] in *.
  - rewrite Hvalid. split; [|exact Hfail].
    destruct (failure_count s' =? 0); reflexivity.
  - cbn. rewrite Hvalid. reflexivity.
Qed.

(** ** More on [Client.get] and [get_endpoint] *)

Section ClientBounds.

Variable env : Env.

Lemma get_attempts_bounded (url : string) (n : nat) :
  forall (s s' : State) (out : Outcome Response),
    get_attempts env n url s = (out, s') ->
    exists k : nat,
      (k <= n)%nat /\ (n <> 0%nat -> (1 <= k)%nat) /\
      requested s' = requested s ++ repeat url k /\
      slept s <= slept s' <= slept s + Z.of_nat k /\
      same_validator s s' /\
      base_url (client s') = base_url (client s) /\
      last_request (client s') = last_request (client s) /\
      match out with
      | Return r => status_code r <> 429 /\ response (client s') = Some r
      | Raise e =>
          (e = exhausted /\ k = n) \/
          exists i, requests_get env i url = inl e
      end.
Proof.
  induction n as [|n IH]; intros s s' out Hrun.
  - cbn in Hrun. injection Hrun as <- <-. exists 0%nat.
    rewrite app_nil_r. unfold same_validator.
    repeat split; try lia. left. split; reflexivity.
  - cbn [get_attempts] in Hrun. unfold bind at 1 in Hrun. unfold http_get in Hrun.
    destruct (requests_get env (length (requested s)) url) as [e|r] eqn:Hget.
    + injection Hrun as <- <-. exists 1%nat. unfold same_validator. cbn.
      repeat split; try lia. right. exists (length (requested s)). exact Hget.
    + unfold bind at 1 in Hrun. cbn [modify] in Hrun.
      destruct (Z.eqb_spec (status_code r) 429) as [E|E]; cbn [negb] in Hrun.
      * unfold bind at 1 in Hrun. cbn [print modify] in Hrun.
        unfold bind at 1 in Hrun. cbn [sleep modify] in Hrun.
        apply IH in Hrun
          as (k & Hk & _ & Hreq & Hslept & Hsame & Hbase & Hlast & Hout).
        exists (S k). cbn in Hreq, Hslept, Hbase, Hlast.
        unfold same_validator in *. cbn in Hsame.
        split; [lia|]. split; [lia|]. split.
        { rewrite Hreq, <- app_assoc. reflexivity. }
        split; [lia|]. split; [tauto|]. split; [exact Hbase|].
        split; [exact Hlast|].
        destruct out as [r'|e]; [exact Hout|].
        destruct Hout as [[-> ->]|Hexc]; [left; split; reflexivity|right; exact Hexc].
      * injection Hrun as <- <-. exists 1%nat. unfold same_validator. cbn.
        repeat split; lia.
Qed.

End ClientBounds.

(** X1.  Whatever the server answers, [Client.get] sends at least one and at most
    five requests, all to [base_url/request]; it sleeps at most one second
    per request sent, records that URL as [last_request] and touches neither
    the base URL nor any attribute of the validator. *)
Theorem Client_get_sends_at_most_five (env : Env) (request : string)
    (s : State) :
  let url := base_url (client s) +:+ "/" +:+ request in
  let s' := snd (Client_get env request s) in
  exists k : nat,
    (1 <= k <= 5)%nat /\
    requested s' = requested s ++ repeat url k /\
    slept s <= slept s' <= slept s + Z.of_nat k /\
    last_request (client s') = Some url /\
    base_url (client s') = base_url (client s) /\
    same_validator s s'.
Proof.
  intros url s'. subst s'. unfold Client_get.
  rewrite (bind_return get_state _ s s s eq_refl).
  unfold bind, modify. fold url.
  change (Z.to_nat MAX_RETRIES) with 5%nat.
  match goal with |- context [get_attempts env 5 url ?t] => set (s1 := t) end.
  destruct (get_attempts env 5 url s1) as [out s'] eqn:Hrun.
  apply get_attempts_bounded in Hrun
    as (k & Hk & Hpos & Hreq & Hslept & Hsame & Hbase & Hlast & _).
  exists k. subst s1. cbn in Hreq, Hslept, Hbase, Hlast.
  unfold same_validator in *. cbn in Hsame. cbn [snd].
  split; [split; [apply Hpos|]; lia|].
  repeat split; try tauto; lia.
Qed.

(** X2.  [Client.get] never returns a rate-limited response: a response it returns
    has a status other than 429 and is the one stored in [self.response];
    when it raises, either the retries are exhausted after five requests to
    the URL, or the exception is one that [requests.get] raised. *)
Theorem Client_get_never_returns_429 (env : Env) (request : string)
    (s : State) :
  let url := base_url (client s) +:+ "/" +:+ request in
  match Client_get env request s with
  | (Return r, s') => status_code r <> 429 /\ response (client s') = Some r
  | (Raise e, s') =>
      (e = exhausted /\ requested s' = requested s ++ repeat url 5) \/
      exists i, requests_get env i url = inl e
  end.
Proof.
  intros url. unfold Client_get.
  rewrite (bind_return get_state _ s s s eq_refl).
  unfold bind, modify. fold url.
  change (Z.to_nat MAX_RETRIES) with 5%nat.
  match goal with |- context [get_attempts env 5 url ?t] => set (s1 := t) end.
  destruct (get_attempts env 5 url s1) as [out s'] eqn:Hrun.
  apply get_attempts_bounded in Hrun
    as (k & _ & _ & Hreq & _ & _ & _ & _ & Hout).
  destruct out as [r|e]; [exact Hout|].
  destruct Hout as [[-> ->]|Hexc]; [left|right; exact Hexc].
  split; [reflexivity|]. subst s1. cbn in Hreq. exact Hreq.
Qed.

Lemma split_on_cons (sep : ascii) (s : string) :
  exists h t, split_on sep s = h :: t.
Proof.
  destruct s as [|c s]; cbn [split_on]; [eauto|].
  destruct (Ascii.eqb c sep); [eauto|].
  destruct (split_on sep s); eauto.
Qed.

Lemma join_with_cons (sep : ascii) (x h : string) (t : list string) :
  join_with sep (x :: h :: t) = x +:+ String sep (join_with sep (h :: t)).
Proof. reflexivity. Qed.

Lemma join_split_on (sep : ascii) (s : string) :
  join_with sep (split_on sep s) = s.
Proof.
  induction s as [|c s IH]; [reflexivity|].
  cbn [split_on]. destruct (split_on_cons sep s) as (h & t & Hs).
  rewrite Hs in *. destruct (Ascii.eqb_spec c sep) as [->|Hc].
  - rewrite join_with_cons, IH. reflexivity.
  - destruct t as [|h' t].
    + cbn [join_with] in *. rewrite IH. reflexivity.
    + rewrite join_with_cons in *. rewrite <- IH. reflexivity.
Qed.

Lemma split_on_pieces (sep : ascii) (s : string) :
  forallb (fun piece => negb (contains sep piece)) (split_on sep s) = true.
Proof.
  induction s as [|c s IH]; [reflexivity|].
  cbn [split_on]. destruct (split_on_cons sep s) as (h & t & Hs).
  rewrite Hs in *. cbn [forallb] in IH. apply andb_prop in IH as [Hh Ht].
  destruct (Ascii.eqb c sep) eqn:Hc; cbn [forallb contains].
  - rewrite Hh, Ht. reflexivity.
  - rewrite Hc. cbn [orb]. rewrite Hh, Ht. reflexivity.
Qed.

Section Requests.

Variable env : Env.

Lemma Client_get_exhausted (request : string) (s : State) :
  let url := base_url (client s) +:+ "/" +:+ request in
  (forall i, (i < 5)%nat ->
     exists r, requests_get env (length (requested s) + i) url = inr r /\
               status_code r = 429) ->
  exists s',
    Client_get env request s = (Raise exhausted, s') /\
    requested s' = requested s ++ repeat url 5 /\
    slept s' = slept s + 5 /\
    same_validator s s' /\
    last_request (client s') = Some url.
Proof.
  intros url Hlim. unfold Client_get.
  rewrite (bind_return get_state _ s s s eq_refl).
  unfold bind, modify. fold url. change (Z.to_nat MAX_RETRIES) with 5%nat.
  match goal with |- context [get_attempts env 5 url ?t] => set (s1 := t) end.
  destruct (get_attempts_rate_limited env 5 url s1 Hlim)
    as (s' & Hrun & Hreq & Hslept & Hsame).
  exists s'. split; [exact Hrun|].
  destruct (get_attempts_bounded env url 5 s1 s' _ Hrun)
    as (_ & _ & _ & _ & _ & _ & _ & Hlast & _).
  subst s1. cbn in Hreq, Hslept, Hlast. unfold same_validator in *. cbn in Hsame.
  repeat split; try tauto; lia.
Qed.

End Requests.

(** X4.  When the next five answers to a request are HTTP 429, [get_endpoint]
    turns the exhausted retries into a counted failure: it returns [False],
    the failure counter grows by one and the success counter is unchanged,
    after five requests and five seconds of sleep. *)
Theorem get_endpoint_counts_exhausted_retries (env : Env) (request : string)
    (s : State) :
  let url := base_url (client s) +:+ "/" +:+ request in
  (forall i, (i < 5)%nat ->
     exists r, requests_get env (length (requested s) + i) url = inr r /\
               status_code r = 429) ->
  exists s',
    get_endpoint env request s = (Return PyFalse, s') /\
    failure_count s' = failure_count s + 1 /\
    success_count s' = success_count s /\
    requested s' = requested s ++ repeat url 5 /\
    slept s' = slept s + 5.
Proof.
  intros url Hlim.
  destruct (Client_get_exhausted env request s Hlim)
    as (s1 & Hrun & Hreq & Hslept & (_ & _ & _ & _ & Hs & Hf) & _).
  eexists. split.
  - unfold get_endpoint. apply (test_case_caught _ s s1 exhausted); [|reflexivity].
    rewrite (bind_raise _ _ _ _ _ Hrun). reflexivity.
  - fields. subst url. repeat split; first [lia|exact Hreq].
Qed.

(** X3.  When the first answer to a request has a status other than 429,
    [get_endpoint] sends that single request without sleeping; it returns the
    response and counts one success when the status is 200, and returns
    [False] and counts one failure for every other status. *)
Theorem get_endpoint_passes_only_200 (env : Env) (request : string)
    (r : Response) (s : State) :
  let url := base_url (client s) +:+ "/" +:+ request in
  requests_get env (length (requested s)) url = inr r ->
  status_code r <> 429 ->
  exists s',
    get_endpoint env request s
    = (Return (if status_code r =? 200 then Got r else PyFalse), s') /\
    success_count s'
    = success_count s + (if status_code r =? 200 then 1 else 0) /\
    failure_count s'
    = failure_count s + (if status_code r =? 200 then 0 else 1) /\
    requested s' = requested s ++ [url] /\
    slept s' = slept s.
Proof.
  intros url Hr H429.
  destruct (Z.eqb_spec (status_code r) 200) as [H200|H200].
  - rewrite (get_endpoint_ok env request r s Hr H200).
    eexists. split; [reflexivity|]. fields. repeat split; lia.
  - rewrite (get_endpoint_bad env request r s Hr H429 H200).
    eexists. split; [reflexivity|]. fields. repeat split; lia.
Qed.

(** X5.  When [requests.get] itself raises an exception that is not one of the
    three classes of the wrapper (a connection error, say), [get_endpoint]
    raises it: nothing is counted and nothing is printed, and the request is
    the only one sent. *)
Theorem get_endpoint_lets_request_errors_through (env : Env)
    (request : string) (e : Exc) (s : State) :
  let url := base_url (client s) +:+ "/" +:+ request in
  requests_get env (length (requested s)) url = inl e ->
  recognized (exc_class e) = false ->
  exists s',
    get_endpoint env request s = (Raise e, s') /\
    success_count s' = success_count s /\
    failure_count s' = failure_count s /\
    stdout s' = stdout s /\
    requested s' = requested s ++ [url].
Proof.
  intros url Hget Hexc.
  set (s1 := with_requested (requested s ++ [url])
               (with_client (mkClient (base_url (client s)) (Some url)
                               (response (client s))) s)).
  assert (Hrun : Client_get env request s = (Raise e, s1)).
  { unfold Client_get.
    rewrite (bind_return get_state _ s s s eq_refl).
    unfold bind at 1. cbn [modify].
    change (Z.to_nat MAX_RETRIES) with 5%nat. cbn [get_attempts].
    unfold bind at 1, http_get. fold url. cbn [requested with_client].
    rewrite Hget. reflexivity. }
  exists s1. split.
  - unfold get_endpoint. apply test_case_uncaught; [|exact Hexc].
    rewrite (bind_raise _ _ _ _ _ Hrun). reflexivity.
  - subst s1. fields. repeat split; reflexivity.
Qed.

(** X6.  When the wrapped test returns without raising but its result is false in
    Python's truth test (an empty list, an empty string), the wrapper counts
    a failure, not a success, prints the failure lines with the test's own
    message, and returns the result itself rather than [False]. *)
Theorem test_case_counts_falsy_result_as_failure {A : Type} `{Truthy A}
    (test_fn : M (A * string)) (s s1 : State) (a : A) (msg : string) :
  test_fn s = (Return (a, msg), s1) ->
  truthy a = false ->
  exists s2,
    test_case test_fn s = (Return (Got a), s2) /\
    failure_count s2 = failure_count s1 + 1 /\
    success_count s2 = success_count s1 /\
    stdout s2
    = stdout s1 ++
        Failure ("✖: " +:+ str_of_request (last_request (client s1))
                   +:+ " - failed with error")
        :: map (fun line => Warning (tab +:+ line)) (split_on newline msg).
Proof.
  intros Hrun Ha. exists (record_failure msg s1).
  split; [exact (test_case_falsy test_fn s s1 a msg Hrun Ha)|].
  fields. repeat split; reflexivity.
Qed.

(** X7.  When the wrapped test raises one of the three classes, the warning lines
    printed after the failure line carry the whole message [Class: text]:
    none of them holds a newline, and joined by newlines they are that
    message again. *)
Theorem test_case_prints_whole_message {A : Type} `{Truthy A}
    (test_fn : M (A * string)) (s s1 : State) (exc : Exc) :
  test_fn s = (Raise exc, s1) ->
  recognized (exc_class exc) = true ->
  exists s2 pieces,
    test_case test_fn s = (Return PyFalse, s2) /\
    stdout s2
    = stdout s1 ++
        Failure ("✖: " +:+ str_of_request (last_request (client s1))
                   +:+ " - failed with error")
        :: map (fun line => Warning (tab +:+ line)) pieces /\
    join_with newline pieces
    = class_name (exc_class exc) +:+ ": " +:+ exc_str exc /\
    forallb (fun piece => negb (contains newline piece)) pieces = true.
Proof.
  intros Hrun Hexc.
  exists (record_failure (describe exc) s1), (split_on newline (describe exc)).
  split; [exact (test_case_caught test_fn s s1 exc Hrun Hexc)|].
  split; [reflexivity|]. split; [apply join_split_on|apply split_on_pieces].
Qed.

(** ** More on the discovery of the entry types *)

Lemma subscript_error_class (j : JSON) (key : string) (e : Exc) :
  subscript j key = inl e ->
  exc_class e = KeyError \/ exc_class e = TypeError.
Proof.
  destruct j as [| | | |items|fields]; cbn; try (intros [= <-]; auto).
  destruct (obj_get key fields); intros [= <-]. auto.
Qed.

Lemma manual_extract_error_class (j : JSON) (e : Exc) :
  manual_extract j = inl e ->
  exc_class e = KeyError \/ exc_class e = TypeError.
Proof.
  unfold manual_extract, and_then.
  destruct (subscript j "data") as [e1|d] eqn:H1;
    [intros [= <-]; eapply subscript_error_class, H1|].
  destruct (subscript d "attributes") as [e2|a] eqn:H2;
    [intros [= <-]; eapply subscript_error_class, H2|].
  destruct (subscript a "entry_types_by_format") as [e3|f] eqn:H3;
    [intros [= <-]; eapply subscript_error_class, H3|].
  apply subscript_error_class.
Qed.

Lemma hashables_error_class (l : list JSON) (e : Exc) :
  hashables l = inl e -> exc_class e = TypeError.
Proof.
  induction l as [|j l IH]; cbn; [discriminate|].
  unfold and_then.
  destruct j; cbn; try (intros [= <-]; reflexivity);
    destruct (hashables l); try (intros [= <-]; auto); try discriminate;
    intros [= <-]; apply IH; reflexivity.
Qed.

Lemma py_set_of_error_class (v : JSON) (e : Exc) :
  py_set_of v = inl e -> exc_class e = TypeError.
Proof.
  destruct v as [| | | |items|fields]; cbn; try (intros [= <-]; reflexivity);
    try discriminate.
  unfold and_then. destruct (hashables items) eqn:Hh; [|discriminate].
  intros [= <-]. eapply hashables_error_class, Hh.
Qed.

Section Fallback.

Variable env : Env.

Lemma test_info_endpoints_invalid (request : string) (r : Response)
    (cls : ResponseClass) (fields : list (string * JSON)) (err : string)
    (s : State) :
  let url := base_url (client s) +:+ "/" +:+ request in
  requests_get env (length (requested s)) url = inr r ->
  status_code r = 200 ->
  body r = Some (JObj fields) ->
  RESPONSE_CLASSES request = Some cls ->
  parse env cls fields = inl err ->
  test_info_endpoints env request s
  = (Return (IResponse r),
     record_failure (describe (mkExc ValidationError err))
       (record_success "request successful." (after_get url r s))).
Proof.
  intros url Hr Hcode Hbody Hcls Hparse. unfold test_info_endpoints, bind.
  rewrite (get_endpoint_ok env request r s Hr Hcode). fold url.
  unfold truthy at 1, truthy_Response. rewrite Hcode.
  cbn [Z.leb Z.ltb Z.compare Pos.compare Pos.compare_cont andb negb].
  unfold response_class. rewrite Hcls. cbn [ret].
  rewrite (serialize_attempt_invalid env r cls fields err _ Hcode Hbody Hparse).
  reflexivity.
Qed.

Lemma get_available_endpoints_unavailable (r : Response)
    (fields : list (string * JSON)) (e : Exc) (s : State) :
  body r = Some (JObj fields) ->
  manual_extract (JObj fields) = inl e ->
  exists msg,
    get_available_endpoints env (IResponse r) s
    = (Return PyFalse, record_failure msg s).
Proof.
  intros Hbody Hex.
  assert (Hrun : exists exc,
    available env (IResponse r) s = (Raise exc, s) /\
    exc_class exc = ResponseError).
  { unfold available. cbn [entry_types_json manual_fallback].
    unfold json_of_response. rewrite Hbody. unfold bind. cbn [ret].
    destruct (truthy (JObj fields)); cbn [negb].
    - unfold try_except, lift, reraise. rewrite Hex.
      destruct (manual_extract_error_class _ _ Hex) as [-> | ->];
        eexists; split; reflexivity.
    - eexists. split; reflexivity. }
  destruct Hrun as (exc & Hrun & Hexc).
  exists (describe exc). unfold get_available_endpoints.
  apply test_case_caught; [|rewrite Hexc; reflexivity].
  change (match entry_types_json (IResponse r) with
          | inl _ => manual_fallback env (IResponse r)
          | inr v0 => ret v0
          end) with (available env (IResponse r)).
  rewrite (bind_raise _ _ _ _ _ Hrun). reflexivity.
Qed.

End Fallback.

(** X9.  When the base info response does not validate as an [InfoResponse] but
    its raw body holds a non-empty list of strings, without [info], at
    [data.attributes.entry_types_by_format.json], the base info stage
    returns with two successes (request, discovery) and one failure
    (validation) counted, and the working set gains exactly the listed
    types. *)
Theorem base_info_fallback_discovers (env : Env) (r : Response)
    (fields : list (string * JSON)) (err : string) (types : list string)
    (s : State) :
  requests_get env (length (requested s))
    (base_url (client s) +:+ "/" +:+ BASE_INFO_ENDPOINT) = inr r ->
  status_code r = 200 ->
  body r = Some (JObj fields) ->
  parse_info env fields = inl err ->
  manual_extract (JObj fields) = inr (JArr (map JStr types)) ->
  types <> [] ->
  ~ In "info" types ->
  py_in (KStr "info") (test_entry_endpoints s) = false ->
  exists s',
    base_info_stage env s = (Return tt, s') /\
    success_count s' = success_count s + 2 /\
    failure_count s' = failure_count s + 1 /\
    forall x, In x (test_entry_endpoints s')
              <-> In x (test_entry_endpoints s) \/ In x (map KStr types).
Proof.
  intros Hr Hcode Hbody Hparse Hex Hne Hinfo Hset.
  pose proof (test_info_endpoints_invalid env BASE_INFO_ENDPOINT r InfoResponse
                fields err s Hr Hcode Hbody eq_refl) as Htest.
  unfold parse in Htest. rewrite Hparse in Htest. specialize (Htest eq_refl).
  match type of Htest with _ = (_, ?t) => set (s1 := t) in * end.
  pose proof (get_available_endpoints_found env (IResponse r) _ _ s1
                (available_by_hand env r _ _ s1 Hbody Hex)
                (py_set_of_strings types)) as Hfound.
  assert (Hnot : py_in (KStr "info")
                   (test_entry_endpoints
                      (unioned (py_set_union [] (map KStr types)) s1)) = false).
  { apply not_true_is_false. intros Hin. apply py_in_KStr in Hin.
    unfold unioned in Hin. cbn [test_entry_endpoints with_test_entry_endpoints] in Hin.
    apply In_union_of_strings in Hin as [Hin|Hin].
    - change (test_entry_endpoints s1) with (test_entry_endpoints s) in Hin.
      apply py_in_KStr in Hin. rewrite Hset in Hin. discriminate.
    - apply in_map_iff in Hin as (t & [= ->] & Ht). exact (Hinfo Ht). }
  rewrite Hnot in Hfound.
  assert (Htruthy : truthy (JArr (map JStr types)) = true).
  { destruct types; [contradiction|reflexivity]. }
  rewrite Htruthy in Hfound.
  eexists. split.
  - unfold base_info_stage.
    rewrite (bind_return _ _ _ _ _ Htest), (bind_return _ _ _ _ _ Hfound).
    reflexivity.
  - fields. unfold unioned. fields. subst s1. fields.
    split; [lia|]. split; [lia|]. intros x. apply In_union_of_strings.
Qed.

(** X10.  When the base info response does not validate and the manual extraction
    fails as well (an empty object, a missing key or a value that cannot be
    subscripted), the base info stage still returns: one success and two
    failures are counted and the working set is unchanged. *)
Theorem base_info_without_entry_types (env : Env) (r : Response)
    (fields : list (string * JSON)) (err : string) (e : Exc) (s : State) :
  requests_get env (length (requested s))
    (base_url (client s) +:+ "/" +:+ BASE_INFO_ENDPOINT) = inr r ->
  status_code r = 200 ->
  body r = Some (JObj fields) ->
  parse_info env fields = inl err ->
  manual_extract (JObj fields) = inl e ->
  exists s',
    base_info_stage env s = (Return tt, s') /\
    success_count s' = success_count s + 1 /\
    failure_count s' = failure_count s + 2 /\
    test_entry_endpoints s' = test_entry_endpoints s.
Proof.
  intros Hr Hcode Hbody Hparse Hex.
  pose proof (test_info_endpoints_invalid env BASE_INFO_ENDPOINT r InfoResponse
                fields err s Hr Hcode Hbody eq_refl) as Htest.
  unfold parse in Htest. rewrite Hparse in Htest. specialize (Htest eq_refl).
  match type of Htest with _ = (_, ?t) => set (s1 := t) in * end.
  destruct (get_available_endpoints_unavailable env r fields e s1 Hbody Hex)
    as (msg & Hgone).
  eexists. split.
  - unfold base_info_stage.
    rewrite (bind_return _ _ _ _ _ Htest), (bind_return _ _ _ _ _ Hgone).
    reflexivity.
  - fields. subst s1. fields. repeat split; lia.
Qed.

(** X11.  When the manual extraction finds a value that [set] rejects ([null], a
    number, a boolean, or a list holding a list or an object),
    [get_available_endpoints] raises the [TypeError] past the wrapper and
    leaves the state as it was. *)
Theorem entry_types_must_be_iterable (env : Env) (r : Response) (j v : JSON)
    (exc : Exc) (s : State) :
  body r = Some j ->
  manual_extract j = inr v ->
  py_set_of v = inl exc ->
  get_available_endpoints env (IResponse r) s = (Raise exc, s) /\
  exc_class exc = TypeError.
Proof.
  intros Hbody Hex Hset.
  pose proof (py_set_of_error_class v exc Hset) as Hclass.
  split; [|exact Hclass].
  exact (get_available_endpoints_not_iterable env (IResponse r) v exc s
           (available_by_hand env r j v s Hbody Hex) Hset Hclass).
Qed.

(** ** More on the endpoint tests *)

Lemma RESPONSE_CLASSES_info_of (t : string) :
  t <> "structures" ->
  RESPONSE_CLASSES (BASE_INFO_ENDPOINT +:+ "/" +:+ t) = None.
Proof.
  intros Ht. apply String.eqb_neq in Ht.
  unfold RESPONSE_CLASSES, BASE_INFO_ENDPOINT. simpl.
  change (EmptyString +:+ t) with t. rewrite Ht. reflexivity.
Qed.

(** X12.  For an entry type other than [structures], [RESPONSE_CLASSES] has no
    entry for [info/<type>]: when the server answers that request with 200,
    [test_info_endpoints] counts the request as a success and raises
    [KeyError]; when it answers with another status, the failure is counted
    and [False] is returned, the table not being read. *)
Theorem info_of_other_types_has_no_class (env : Env) (t : string)
    (r : Response) (s : State) :
  let request := BASE_INFO_ENDPOINT +:+ "/" +:+ t in
  t <> "structures" ->
  requests_get env (length (requested s))
    (base_url (client s) +:+ "/" +:+ request) = inr r ->
  status_code r <> 429 ->
  exists s',
    test_info_endpoints env request s
    = (if status_code r =? 200
       then Raise (mkExc KeyError request)
       else Return IFalse, s') /\
    success_count s'
    = success_count s + (if status_code r =? 200 then 1 else 0) /\
    failure_count s'
    = failure_count s + (if status_code r =? 200 then 0 else 1).
Proof.
  intros request Ht Hr H429.
  destruct (Z.eqb_spec (status_code r) 200) as [H200|H200].
  - eexists. split.
    + unfold test_info_endpoints.
      rewrite (bind_return _ _ _ _ _ (get_endpoint_ok env request r s Hr H200)).
      unfold truthy at 1, truthy_Response. rewrite H200.
      cbn [Z.leb Z.ltb Z.compare Pos.compare Pos.compare_cont andb negb].
      unfold response_class. subst request.
      rewrite (RESPONSE_CLASSES_info_of t Ht). reflexivity.
    + fields. split; lia.
  - rewrite (test_info_endpoints_bad env request r s Hr H429 H200).
    eexists. split; [reflexivity|]. fields. split; lia.
Qed.

Section FailedListing.

Variable env : Env.

Lemma test_multi_entry_endpoint_unknown (endp : string) (r : Response)
    (s : State) :
  RESPONSE_CLASSES endp = None ->
  requests_get env (length (requested s))
    (base_url (client s) +:+ "/" +:+ endp) = inr r ->
  status_code r <> 429 ->
  test_multi_entry_endpoint env (KStr endp) s
  = (Raise (mkExc KeyError endp),
     if status_code r =? 200
     then record_success "request successful."
            (after_get (base_url (client s) +:+ "/" +:+ endp) r s)
     else record_failure (describe (bad_status endp r))
            (after_get (base_url (client s) +:+ "/" +:+ endp) r s)).
Proof.
  intros Hcls Hr H429. unfold test_multi_entry_endpoint. cbn [py_str].
  destruct (Z.eqb_spec (status_code r) 200) as [H200|H200].
  - rewrite (bind_return _ _ _ _ _ (get_endpoint_ok env endp r s Hr H200)).
    unfold response_class. rewrite Hcls. reflexivity.
  - rewrite (bind_return _ _ _ _ _ (get_endpoint_bad env endp r s Hr H429 H200)).
    unfold response_class. rewrite Hcls. reflexivity.
Qed.

Lemma test_multi_entry_endpoint_failed (endp : string) (r : Response)
    (cls : ResponseClass) (s : State) :
  RESPONSE_CLASSES endp = Some cls ->
  requests_get env (length (requested s))
    (base_url (client s) +:+ "/" +:+ endp) = inr r ->
  status_code r <> 429 ->
  status_code r <> 200 ->
  test_multi_entry_endpoint env (KStr endp) s
  = (Return tt,
     record_failure (describe no_entries)
       (record_failure (describe (mkExc ResponseError "Request failed"))
          (record_failure (describe (bad_status endp r))
             (after_get (base_url (client s) +:+ "/" +:+ endp) r s)))).
Proof.
  intros Hcls Hr H429 H200. unfold test_multi_entry_endpoint. cbn [py_str].
  rewrite (bind_return _ _ _ _ _ (get_endpoint_bad env endp r s Hr H429 H200)).
  unfold response_class. rewrite Hcls. unfold bind at 1. cbn [ret].
  rewrite (bind_return _ _ _ _ _ (serialize_attempt_False env cls _)).
  rewrite (bind_return _ _ _ _ _ (get_single_id_False _)).
  reflexivity.
Qed.

Lemma test_multi_entry_endpoint_invalid (endp : string) (r : Response)
    (cls : ResponseClass) (fields : list (string * JSON)) (err : string)
    (s : State) :
  RESPONSE_CLASSES endp = Some cls ->
  requests_get env (length (requested s))
    (base_url (client s) +:+ "/" +:+ endp) = inr r ->
  status_code r = 200 ->
  body r = Some (JObj fields) ->
  parse env cls fields = inl err ->
  test_multi_entry_endpoint env (KStr endp) s
  = (Return tt,
     record_failure (describe no_entries)
       (record_failure (describe (mkExc ValidationError err))
          (record_success "request successful."
             (after_get (base_url (client s) +:+ "/" +:+ endp) r s)))).
Proof.
  intros Hcls Hr H200 Hbody Hparse. unfold test_multi_entry_endpoint. cbn [py_str].
  rewrite (bind_return _ _ _ _ _ (get_endpoint_ok env endp r s Hr H200)).
  unfold response_class. rewrite Hcls. unfold bind at 1. cbn [ret].
  rewrite (bind_return _ _ _ _ _
             (serialize_attempt_invalid env r cls fields err _ H200 Hbody Hparse)).
  rewrite (bind_return _ _ _ _ _ (get_single_id_False _)).
  reflexivity.
Qed.

End FailedListing.

(** X13.  For an entry type that is not a key of [RESPONSE_CLASSES],
    [test_multi_entry_endpoint] sends the request, counts its outcome (one
    step, passed or failed) and then raises [KeyError], whatever the answer
    was; the registry is unchanged. *)
Theorem listing_of_unknown_type_raises (env : Env) (endp : string)
    (r : Response) (s : State) :
  RESPONSE_CLASSES endp = None ->
  requests_get env (length (requested s))
    (base_url (client s) +:+ "/" +:+ endp) = inr r ->
  status_code r <> 429 ->
  exists s',
    test_multi_entry_endpoint env (KStr endp) s
    = (Raise (mkExc KeyError endp), s') /\
    success_count s' + failure_count s'
    = success_count s + failure_count s + 1 /\
    test_id_by_type s' = test_id_by_type s /\
    requested s' = requested s ++ [base_url (client s) +:+ "/" +:+ endp].
Proof.
  intros Hcls Hr H429.
  rewrite (test_multi_entry_endpoint_unknown env endp r s Hcls Hr H429).
  eexists. split; [reflexivity|].
  destruct (status_code r =? 200); fields; repeat split; lia.
Qed.

(** X14.  When the request for a listing fails (a status other than 200 and 429),
    [test_multi_entry_endpoint] goes on with [False]: the request, the
    validation and the scraping of an id each count one failure, no success
    is counted, the registry is unchanged and one request was sent. *)
Theorem failed_listing_counts_three_failures (env : Env) (endp : string)
    (r : Response) (cls : ResponseClass) (s : State) :
  RESPONSE_CLASSES endp = Some cls ->
  requests_get env (length (requested s))
    (base_url (client s) +:+ "/" +:+ endp) = inr r ->
  status_code r <> 429 ->
  status_code r <> 200 ->
  exists s',
    test_multi_entry_endpoint env (KStr endp) s = (Return tt, s') /\
    failure_count s' = failure_count s + 3 /\
    success_count s' = success_count s /\
    test_id_by_type s' = test_id_by_type s /\
    requested s' = requested s ++ [base_url (client s) +:+ "/" +:+ endp].
Proof.
  intros Hcls Hr H429 H200.
  rewrite (test_multi_entry_endpoint_failed env endp r cls s Hcls Hr H429 H200).
  eexists. split; [reflexivity|]. fields. repeat split; lia.
Qed.

(** X15.  When a listing is fetched with status 200 but does not validate as a
    [StructureResponseMany], [test_multi_entry_endpoint] returns with one
    success (request) and two failures (validation, scraping) counted, and
    the registry unchanged. *)
Theorem invalid_listing_counts_two_failures (env : Env) (endp : string)
    (r : Response) (fields : list (string * JSON)) (err : string)
    (s : State) :
  RESPONSE_CLASSES endp = Some StructureResponseMany ->
  requests_get env (length (requested s))
    (base_url (client s) +:+ "/" +:+ endp) = inr r ->
  status_code r = 200 ->
  body r = Some (JObj fields) ->
  parse_many env fields = inl err ->
  exists s',
    test_multi_entry_endpoint env (KStr endp) s = (Return tt, s') /\
    success_count s' = success_count s + 1 /\
    failure_count s' = failure_count s + 2 /\
    test_id_by_type s' = test_id_by_type s.
Proof.
  intros Hcls Hr H200 Hbody Hparse.
  rewrite (test_multi_entry_endpoint_invalid env endp r StructureResponseMany
             fields err s Hcls Hr H200 Hbody);
    [|unfold parse; rewrite Hparse; reflexivity].
  eexists. split; [reflexivity|]. fields. repeat split; lia.
Qed.

(** X8.  When the response is a success whose body is not a JSON object (not JSON
    at all, or an array, a string, a number), [serialize_attempt] raises an
    exception that the wrapper does not catch, and leaves the state as it
    was: nothing is counted. *)
Theorem serialize_attempt_needs_an_object (env : Env) (r : Response)
    (cls : ResponseClass) (s : State) :
  truthy r = true ->
  (forall fields, body r <> Some (JObj fields)) ->
  exists e,
    serialize_attempt env (Got r) cls s = (Raise e, s) /\
    recognized (exc_class e) = false.
Proof.
  intros Hok Hbody.
  assert (Hrun : exists e,
    (kwargs <- json_of_response r ;;
     m <- construct env cls kwargs ;;
     ret (m, "serialized correctly as " +:+ repr_class env cls)) s
    = (Raise e, s) /\ recognized (exc_class e) = false).
  { unfold bind, json_of_response.
    destruct (body r) as [j|] eqn:Hj; [|eexists; split; reflexivity].
    destruct j as [| | | |items|fields];
      try (eexists; split; reflexivity).
    exfalso. exact (Hbody fields eq_refl). }
  destruct Hrun as (e & Hrun & Hexc).
  exists e. split; [|exact Hexc].
  unfold serialize_attempt. rewrite Hok. cbn [negb].
  apply test_case_uncaught; assumption.
Qed.

Lemma single_entry_tests (env : Env) (l : list PyKey) (s : State) :
  for_each l (test_single_entry_endpoint env) s
  = (if existsb (fun t => registered t (test_id_by_type s)) l
     then Raise unbound
     else Return tt, s).
Proof.
  induction l as [|t l IH]; [reflexivity|].
  cbn [for_each existsb].
  destruct (registered t (test_id_by_type s)) eqn:Hreg; cbn [orb].
  - rewrite (bind_raise _ _ _ _ _
               (test_single_entry_endpoint_registered env t s Hreg)).
    reflexivity.
  - rewrite (bind_return _ _ _ _ _
               (test_single_entry_endpoint_skipped env t s Hreg)).
    exact IH.
Qed.

(** X16.  The single-entry stage never changes the state: no request is sent and
    no counter moves.  It returns when no member of the working set has a
    registered id, and raises the [NameError] of [test_id] as soon as one
    has. *)
Theorem single_entry_stage_sends_nothing (env : Env) (s : State) :
  single_entry_stage env s
  = (if existsb (fun t => registered t (test_id_by_type s))
          (test_entry_endpoints s)
     then Raise unbound
     else Return tt, s).
Proof.
  unfold single_entry_stage.
  rewrite (bind_return get_state _ s s s eq_refl).
  apply single_entry_tests.
Qed.

(** X17.  Against a server whose base info lists [structures] only, whose info
    documents validate and whose listing of structures validates with no
    resource, the whole script completes: seven steps pass, the scraping of
    an id is the one failure, nothing is registered so that the single-entry
    test is skipped, [valid] is [False] and the exit status is 1. *)
Theorem empty_listing_run_exits_with_1 (env : Env) (b : string) (verb : Z)
    (r1 r2 r3 : Response) (f1 f2 f3 : list (string * JSON))
    (formats : gmap string (list string)) :
  (forall k, requests_get env k (b +:+ "/info") = inr r1) ->
  status_code r1 = 200 ->
  body r1 = Some (JObj f1) ->
  parse_info env f1 = inr formats ->
  formats !! "json" = Some ["structures"] ->
  (forall k, requests_get env k (b +:+ "/info/structures") = inr r2) ->
  status_code r2 = 200 ->
  body r2 = Some (JObj f2) ->
  parse_entry_info env f2 = inr tt ->
  (forall k, requests_get env k (b +:+ "/structures") = inr r3) ->
  status_code r3 = 200 ->
  body r3 = Some (JObj f3) ->
  parse_many env f3 = inr [] ->
  exists s',
    script env b verb = (1, s') /\
    valid s' = Some false /\
    failure_count s' = 1 /\
    success_count s' = 7 /\
    test_id_by_type s' = ∅ /\
    requested s' = [b +:+ "/info"; b +:+ "/info/structures"; b +:+ "/structures"].
Proof.
  intros Hr1 Hc1 Hb1 Hp1 Hjson Hr2 Hc2 Hb2 Hp2 Hr3 Hc3 Hb3 Hp3.
  set (s0 := new_validator (mkClient b None None) verb).
  (* the base info document *)
  pose proof (test_info_endpoints_ok env BASE_INFO_ENDPOINT r1 InfoResponse
                f1 (MInfo formats) s0 (Hr1 _) Hc1 Hb1 eq_refl) as Hinfo.
  unfold parse in Hinfo. rewrite Hp1 in Hinfo. specialize (Hinfo eq_refl).
  match type of Hinfo with _ = (_, ?t) => set (s1 := t) in * end.
  assert (Hav : available env (IModel (MInfo formats)) s1
                = (Return (JArr (map JStr ["structures"])), s1)).
  { unfold available. cbn [entry_types_json]. rewrite Hjson. reflexivity. }
  pose proof (get_available_endpoints_found env _ _ _ s1 Hav
                (py_set_of_strings ["structures"])) as Hfound.
  change (test_entry_endpoints
            (unioned (py_set_union [] (map KStr ["structures"])) s1))
    with [KStr "structures"] in Hfound.
  cbn [py_in existsb py_eq String.eqb Ascii.eqb Bool.eqb orb
       map truthy truthy_JSON] in Hfound.
  match type of Hfound with _ = (_, ?t) => set (s2 := t) in * end.
  assert (Hstage1 : base_info_stage env s0 = (Return tt, s2)).
  { unfold base_info_stage.
    rewrite (bind_return _ _ _ _ _ Hinfo), (bind_return _ _ _ _ _ Hfound).
    reflexivity. }
  (* the info document of structures *)
  pose proof (test_info_endpoints_ok env (BASE_INFO_ENDPOINT +:+ "/" +:+ "structures")
                r2 EntryInfoResponse f2 MEntryInfo s2 (Hr2 _) Hc2 Hb2 eq_refl)
    as Hentry.
  unfold parse in Hentry. rewrite Hp2 in Hentry. specialize (Hentry eq_refl).
  match type of Hentry with _ = (_, ?t) => set (s3 := t) in * end.
  assert (Hstage2 : entry_info_stage env s2 = (Return tt, s3)).
  { unfold entry_info_stage.
    rewrite (bind_return get_state _ s2 s2 s2 eq_refl).
    change (test_entry_endpoints s2) with [KStr "structures"].
    cbn [for_each py_str].
    rewrite (bind_return _ _ _ _ _
               (bind_return _ (fun _ => ret tt) _ _ _ Hentry)).
    reflexivity. }
  (* the empty listing *)
  pose proof (test_multi_entry_endpoint_listed env "structures" r3 f3
                [] s3 (Hr3 _) Hc3 Hb3 eq_refl Hp3) as Hlist.
  match type of Hlist with _ = (_, ?t) => set (s4 := t) in * end.
  assert (Hstage3 : multi_entry_stage env s3 = (Return tt, s4)).
  { unfold multi_entry_stage.
    rewrite (bind_return get_state _ s3 s3 s3 eq_refl).
    change (test_entry_endpoints s3) with [KStr "structures"].
    cbn [for_each].
    rewrite (bind_return _ _ _ _ _ Hlist). reflexivity. }
  (* nothing is registered: the single-entry tests are skipped *)
  assert (Hstage4 : single_entry_stage env s4 = (Return tt, s4)).
  { rewrite single_entry_stage_sends_nothing.
    change (test_entry_endpoints s4) with [KStr "structures"].
    change (test_id_by_type s4) with (∅ : gmap string string).
    reflexivity. }
  assert (Hmain : main env s0 = (Return tt, concluded s4)).
  { rewrite main_stages. unfold stages.
    rewrite (bind_return _ _ _ _ _ Hstage1), (bind_return _ _ _ _ _ Hstage2),
      (bind_return _ _ _ _ _ Hstage3), Hstage4. reflexivity. }
  exists (concluded s4). split.
  - unfold script. cbn [init]. fold s0. unfold try_except. rewrite Hmain.
    reflexivity.
  - repeat split; reflexivity.
Qed.

(** ** The constructor *)

(** X24.  The constructor raises [RuntimeError] when neither a client nor a base
    URL is given, and when a client is given together with a non-empty base
    URL; in every other case (a client with no or an empty base URL, or a
    base URL alone, for which a new client is made) the validator starts
    with both counters at zero, [valid] unset, an empty registry, no request
    sent and the required entry types as its working set. *)
Theorem init_wants_one_source (c : option Client) (b : option string)
    (verb : Z) :
  match init c b verb with
  | inl e =>
      exc_class e = RuntimeError /\
      ((c = None /\ b = None) \/
       (exists cl u, c = Some cl /\ b = Some u /\ u <> EmptyString))
  | inr s =>
      ((exists cl, c = Some cl /\ client s = cl /\
                   (b = None \/ b = Some EmptyString)) \/
       (exists u, c = None /\ b = Some u /\ client s = mkClient u None None)) /\
      success_count s = 0 /\
      failure_count s = 0 /\
      valid s = None /\
      verbosity s = verb /\
      test_id_by_type s = ∅ /\
      test_entry_endpoints s = map KStr REQUIRED_ENTRY_ENDPOINTS /\
      requested s = []
  end.
Proof.
  destruct c as [cl|], b as [u|]; cbn [init].
  - destruct u as [|a u]; cbn.
    + split; [left; exists cl; auto|]. repeat split; reflexivity.
    + split; [reflexivity|]. right. exists cl, (String a u).
      repeat split; discriminate.
  - split; [left; exists cl; auto|]. repeat split; reflexivity.
  - split; [right; exists u; auto|]. repeat split; reflexivity.
  - split; [reflexivity|]. left. auto.
Qed.

(** ** The further statements on the servers of [Scenario] and [Faults] *)

Import Faults.

(** X4 on a server that is rate limited for its first seven requests. *)
Lemma get_endpoint_on_throttled_server :
  exists s',
    get_endpoint (serving (throttled 7)) "info" fresh = (Return PyFalse, s') /\
    failure_count s' = failure_count fresh + 1 /\
    success_count s' = success_count fresh /\
    requested s' = requested fresh ++ repeat (url +:+ "/info") 5 /\
    slept s' = slept fresh + 5.
Proof.
  apply (get_endpoint_counts_exhausted_retries (serving (throttled 7)) "info" fresh).
  intros i Hi.
  destruct i as [|[|[|[|[|i]]]]]; [eexists; split; reflexivity ..|lia].
Defined.

(** X3 on a server whose [info] endpoint answers 500. *)
Lemma get_endpoint_on_broken_info :
  exists s',
    get_endpoint (serving info_broken) "info" fresh = (Return PyFalse, s') /\
    success_count s' = success_count fresh + 0 /\
    failure_count s' = failure_count fresh + 1 /\
    requested s' = requested fresh ++ [url +:+ "/info"] /\
    slept s' = slept fresh.
Proof.
  apply (get_endpoint_passes_only_200 (serving info_broken) "info"
           (mkResponse 500 None) fresh).
  - reflexivity.
  - discriminate.
Defined.

(** X5 when no server listens. *)
Lemma get_endpoint_on_unreachable_server :
  exists s',
    get_endpoint (serving unreachable) "info" fresh
    = (Raise (mkExc ConnectionError "Connection refused"), s') /\
    success_count s' = success_count fresh /\
    failure_count s' = failure_count fresh /\
    stdout s' = stdout fresh /\
    requested s' = requested fresh ++ [url +:+ "/info"].
Proof.
  apply (get_endpoint_lets_request_errors_through (serving unreachable) "info"
           (mkExc ConnectionError "Connection refused") fresh);
    reflexivity.
Defined.

(** X6 on a test that returns an empty list. *)
Lemma test_case_on_empty_result :
  exists s2,
    test_case (ret (JArr [], "no types")) fresh = (Return (Got (JArr [])), s2) /\
    failure_count s2 = failure_count fresh + 1 /\
    success_count s2 = success_count fresh /\
    stdout s2
    = stdout fresh ++
        Failure ("✖: " +:+ str_of_request (last_request (client fresh))
                   +:+ " - failed with error")
        :: map (fun line => Warning (tab +:+ line)) (split_on newline "no types").
Proof.
  apply (test_case_counts_falsy_result_as_failure
           (ret (JArr [], "no types")) fresh fresh (JArr []) "no types");
    reflexivity.
Defined.

(** X7 on a [ValidationError] of two lines. *)
Lemma test_case_on_two_line_message :
  exists s2 pieces,
    test_case (A := Response)
      (raise ValidationError ("1 validation error" +:+ String newline "data"))
      fresh
    = (Return PyFalse, s2) /\
    stdout s2
    = stdout fresh ++
        Failure ("✖: " +:+ str_of_request (last_request (client fresh))
                   +:+ " - failed with error")
        :: map (fun line => Warning (tab +:+ line)) pieces /\
    join_with newline pieces
    = class_name ValidationError +:+ ": "
        +:+ ("1 validation error" +:+ String newline "data") /\
    forallb (fun piece => negb (contains newline piece)) pieces = true.
Proof.
  apply (test_case_prints_whole_message (A := Response)
           (raise ValidationError ("1 validation error" +:+ String newline "data"))
           fresh fresh
           (mkExc ValidationError ("1 validation error" +:+ String newline "data")));
    reflexivity.
Defined.

(** X9 on a base info document with a format that is not a list. *)
Lemma fallback_on_loose_formats :
  exists s',
    base_info_stage (serving loosely_described) fresh = (Return tt, s') /\
    success_count s' = success_count fresh + 2 /\
    failure_count s' = failure_count fresh + 1 /\
    forall x, In x (test_entry_endpoints s')
              <-> In x (test_entry_endpoints fresh)
                  \/ In x (map KStr ["structures"; "calculations"]).
Proof.
  apply (base_info_fallback_discovers (serving loosely_described)
           (mkResponse 200 (Some (info_body loose_formats)))
           (info_fields loose_formats)
           "entry_types_by_format: value is not a valid list"
           ["structures"; "calculations"] fresh).
  - reflexivity.
  - reflexivity.
  - reflexivity.
  - reflexivity.
  - reflexivity.
  - discriminate.
  - intros [H|[H|[]]]; discriminate H.
  - reflexivity.
Defined.

(** X10 on a base info document without attributes. *)
Lemma fallback_on_bare_info :
  exists s',
    base_info_stage (serving barely_described) fresh = (Return tt, s') /\
    success_count s' = success_count fresh + 1 /\
    failure_count s' = failure_count fresh + 2 /\
    test_entry_endpoints s' = test_entry_endpoints fresh.
Proof.
  apply (base_info_without_entry_types (serving barely_described)
           (mkResponse 200 (Some (JObj bare_info))) bare_info
           "data -> attributes -> entry_types_by_format: field required"
           (mkExc KeyError "attributes") fresh);
    reflexivity.
Defined.

(** X11 on a base info document whose JSON format is [null]. *)
Lemma null_entry_types_raise :
  get_available_endpoints (serving one_structure)
    (IResponse (mkResponse 200 (Some null_formats))) fresh
  = (Raise (mkExc TypeError "'NoneType' object is not iterable"), fresh) /\
  exc_class (mkExc TypeError "'NoneType' object is not iterable") = TypeError.
Proof.
  apply (entry_types_must_be_iterable (serving one_structure)
           (mkResponse 200 (Some null_formats)) null_formats JNull
           (mkExc TypeError "'NoneType' object is not iterable") fresh);
    reflexivity.
Defined.

(** X12 on a server that describes calculations. *)
Lemma info_of_calculations_raises :
  exists s',
    test_info_endpoints (serving describes_calculations)
      (BASE_INFO_ENDPOINT +:+ "/" +:+ "calculations") fresh
    = (Raise (mkExc KeyError (BASE_INFO_ENDPOINT +:+ "/" +:+ "calculations")), s') /\
    success_count s' = success_count fresh + 1 /\
    failure_count s' = failure_count fresh + 0.
Proof.
  apply (info_of_other_types_has_no_class (serving describes_calculations)
           "calculations" (mkResponse 200 (Some (JObj [("data", JObj [])]))) fresh).
  - discriminate.
  - reflexivity.
  - discriminate.
Defined.

(** X13 on the listing of [trajectories]. *)
Lemma listing_of_trajectories_raises :
  exists s',
    test_multi_entry_endpoint (serving one_structure) (KStr "trajectories") fresh
    = (Raise (mkExc KeyError "trajectories"), s') /\
    success_count s' + failure_count s'
    = success_count fresh + failure_count fresh + 1 /\
    test_id_by_type s' = test_id_by_type fresh /\
    requested s' = requested fresh ++ [base_url (client fresh) +:+ "/" +:+ "trajectories"].
Proof.
  apply (listing_of_unknown_type_raises (serving one_structure) "trajectories"
           (mkResponse 404 None) fresh).
  - reflexivity.
  - reflexivity.
  - discriminate.
Defined.

(** X14 on the listing of [calculations], which the server does not have. *)
Lemma listing_of_missing_calculations :
  exists s',
    test_multi_entry_endpoint (serving one_structure) (KStr "calculations") fresh
    = (Return tt, s') /\
    failure_count s' = failure_count fresh + 3 /\
    success_count s' = success_count fresh /\
    test_id_by_type s' = test_id_by_type fresh /\
    requested s' = requested fresh ++ [base_url (client fresh) +:+ "/" +:+ "calculations"].
Proof.
  apply (failed_listing_counts_three_failures (serving one_structure)
           "calculations" (mkResponse 404 None) StructureResponseMany fresh).
  - reflexivity.
  - reflexivity.
  - discriminate.
  - discriminate.
Defined.

(** X15 on a listing whose [data] is a number. *)
Lemma listing_without_a_list :
  exists s',
    test_multi_entry_endpoint (serving broken_listing) (KStr "structures") fresh
    = (Return tt, s') /\
    success_count s' = success_count fresh + 1 /\
    failure_count s' = failure_count fresh + 2 /\
    test_id_by_type s' = test_id_by_type fresh.
Proof.
  apply (invalid_listing_counts_two_failures (serving broken_listing)
           "structures" (mkResponse 200 (Some (JObj [("data", JNum 5)])))
           [("data", JNum 5)] "data: field required" fresh);
    reflexivity.
Defined.

(** X8 on a body that is an empty array. *)
Lemma serialize_attempt_on_array :
  exists e,
    serialize_attempt (serving one_structure)
      (Got (mkResponse 200 (Some (JArr [])))) InfoResponse fresh
    = (Raise e, fresh) /\
    recognized (exc_class e) = false.
Proof.
  apply (serialize_attempt_needs_an_object (serving one_structure)
           (mkResponse 200 (Some (JArr []))) InfoResponse fresh).
  - reflexivity.
  - intros fields H. discriminate H.
Defined.

(** X17 on the server without any structure. *)
Lemma run_without_structures_exits_with_1 :
  exists s',
    script (serving no_structure) url 0 = (1, s') /\
    valid s' = Some false /\
    failure_count s' = 1 /\
    success_count s' = 7 /\
    test_id_by_type s' = ∅ /\
    requested s' = [url +:+ "/info"; url +:+ "/info/structures"; url +:+ "/structures"].
Proof.
  apply (empty_listing_run_exits_with_1 (serving no_structure) url 0
           (mkResponse 200 (Some (JObj structures_only)))
           (mkResponse 200 (Some (JObj [("data", JObj [])])))
           (mkResponse 200 (Some (JObj [("data", JArr [])])))
           structures_only
           [("data", JObj [])]
           [("data", JArr [])]
           {["json" := ["structures"]]});
    reflexivity.
Defined.
